(** * Network diagnostics monitors: a shallow embedding and its properties

    The development follows [diagnostics/network/network.py]:
    [NetworkMetrics], [LatencyMonitor], [DNSMonitor] and [SSLCertMonitor].

    Python values are modelled as the code has them:
    - [time.time()] readings, TTLs, intervals and latency samples are IEEE
      binary64 numbers (Rocq's primitive [float]);
    - [datetime] values are microsecond counts with an optional UTC offset
      (naive or aware), [timedelta] is a microsecond count;
    - dictionaries are [gmap]s, lists are [list]s;
    - methods are computations in a state-and-exception monad over the
      monitor object and the world (a counter of interactions with the
      environment and the trace of what was done).  State changes made
      before an exception is raised persist, as they do in Python. *)

From Stdlib Require Import ZArith Floats Lia.
From stdpp Require Import gmap strings list fin_maps pretty.

Set Warnings "-inexact-float".
#[local] Open Scope Z_scope.

(** ** Python exceptions *)

Module Py.

(** The part of the exception class hierarchy the monitors can meet.
    [socket.timeout] is [TimeoutError], [socket.error] is [OSError]. *)
Inductive exc_class : Type :=
  | BaseException
  | KeyboardInterrupt
  | SystemExit
  | GeneratorExit
  | Exception
  | ArithmeticError
  | OverflowError
  | AttributeError
  | LookupError
  | IndexError
  | KeyError
  | MemoryError
  | RuntimeError
  | TypeError
  | ValueError
  | UnicodeError
  | OSError
  | ConnectionError
  | ConnectionRefusedError
  | TimeoutError
  | socket_gaierror
  | socket_herror
  | ssl_SSLError.

#[global] Instance exc_class_eq_dec : EqDecision exc_class.
Proof. solve_decision. Defined.

(** The direct base class ([__base__]). *)
Definition base (c : exc_class) : option exc_class :=
  match c with
  | BaseException => None
  | KeyboardInterrupt | SystemExit | GeneratorExit | Exception =>
      Some BaseException
  | ArithmeticError | AttributeError | LookupError | MemoryError
  | RuntimeError | TypeError | ValueError | OSError => Some Exception
  | OverflowError => Some ArithmeticError
  | IndexError | KeyError => Some LookupError
  | UnicodeError => Some ValueError
  | ConnectionError | TimeoutError | socket_gaierror | socket_herror
  | ssl_SSLError => Some OSError
  | ConnectionRefusedError => Some ConnectionError
  end.

(** [issubclass c d], walking up the bases; the hierarchy above has
    depth four, which bounds the walk. *)
Fixpoint issubclass_fuel (fuel : nat) (c d : exc_class) : bool :=
  if decide (c = d) then true
  else match fuel with
       | O => false
       | S fuel' =>
           match base c with
           | Some b => issubclass_fuel fuel' b d
           | None => false
           end
       end.

Definition issubclass (c d : exc_class) : bool := issubclass_fuel 4 c d.

(** An exception instance: its class and its message. *)
Record exn : Type := mk_exn { exn_class : exc_class; exn_msg : string }.

Definition isinstance (e : exn) (c : exc_class) : bool :=
  issubclass (exn_class e) c.

(** [except (c1, c2, ...)] matches an instance of any listed class. *)
Definition matches (cs : list exc_class) (e : exn) : bool :=
  existsb (isinstance e) cs.

End Py.

(** ** The state-and-exception monad *)

Inductive result (A : Type) : Type :=
  | Ret (a : A)
  | Raise (e : Py.exn).
Arguments Ret {A} a.
Arguments Raise {A} e.

Definition M (St A : Type) : Type := St -> result A * St.

Definition ret {St A} (a : A) : M St A := fun s => (Ret a, s).

Definition bind {St A B} (m : M St A) (k : A -> M St B) : M St B :=
  fun s =>
    match m s with
    | (Ret a, s') => k a s'
    | (Raise e, s') => (Raise e, s')
    end.

Definition raise {St A} (e : Py.exn) : M St A := fun s => (Raise e, s).

(** [try: body except (cs) as e: handler e].  An exception the clause does
    not match keeps propagating. *)
Definition try_except {St A} (body : M St A) (cs : list Py.exc_class)
    (handler : Py.exn -> M St A) : M St A :=
  fun s =>
    match body s with
    | (Ret a, s') => (Ret a, s')
    | (Raise e, s') =>
        if Py.matches cs e then handler e s' else (Raise e, s')
    end.

Definition gets {St A} (f : St -> A) : M St A := fun s => (Ret (f s), s).
Definition modify {St} (f : St -> St) : M St unit := fun s => (Ret tt, f s).

Declare Scope py_scope.
Delimit Scope py_scope with py.
Notation "x <- c ;; k" := (bind c (fun x => k))
  (at level 100, c at next level, right associativity) : py_scope.
Notation "c ;;; k" := (bind c (fun _ => k))
  (at level 100, right associativity) : py_scope.

(** ** Library values: [datetime], X.509 certificates, interface objects *)

(** A [datetime]: microseconds of its wall-clock fields, and its UTC offset
    in microseconds when it is timezone-aware ([None] when naive). *)
Record datetime : Type := mk_datetime {
  dt_micros : Z;
  dt_utcoffset : option Z
}.

(** [a - b] on datetimes, a [timedelta] in microseconds: two naive values
    subtract their fields, two aware values their UTC instants, and a naive
    with an aware one raises [TypeError]. *)
Definition datetime_sub (a b : datetime) : Py.exn + Z :=
  match dt_utcoffset a, dt_utcoffset b with
  | None, None => inr (dt_micros a - dt_micros b)
  | Some oa, Some ob => inr ((dt_micros a - oa) - (dt_micros b - ob))
  | _, _ =>
      inl (Py.mk_exn Py.TypeError
             "can't subtract offset-naive and offset-aware datetimes")
  end.

Definition micros_per_day : Z := 86400 * 1000000.

(** [timedelta.days]: a timedelta is normalised with its seconds and
    microseconds non-negative, so [days] is the floor. *)
Definition timedelta_days (td : Z) : Z := td / micros_per_day.

Module X509.

Inductive oid : Type :=
  | COMMON_NAME
  | ORGANIZATION_NAME
  | OtherOID (dotted : string).

#[global] Instance oid_eq_dec : EqDecision oid.
Proof. solve_decision. Defined.

(** A [Name] is its sequence of attributes. *)
Definition Name : Type := list (oid * string).

(** The library documents [not_valid_before_utc] and [not_valid_after_utc]
    of a parsed certificate as timezone-aware datetimes in UTC; the test
    doubles of the repository carry naive ones.  The record admits both. *)
Record Certificate : Type := mk_Certificate {
  subject : Name;
  issuer : Name;
  not_valid_before_utc : datetime;
  not_valid_after_utc : datetime;
  serial_number : Z;
  version_name : string
}.

Definition get_attributes_for_oid (attrs : Name) (o : oid) : list string :=
  snd <$> filter (fun a => fst a = o) attrs.

End X509.

(** An object of [psutil.net_if_stats()]: the attributes it has. *)
Definition nic : Type := gmap string Z.

(** ** The world *)

Inductive level : Type := DEBUG | INFO | WARNING | ERROR.

(** The messages [network.py] logs, one constructor per format string. *)
Inductive message : Type :=
  | track_latency_called (host : string) (current_time : float)
  | last_check_was (t : float)
  | check_interval_is (t : float)
  | skipping_measurement
  | measured_latency (latency : option float)
  | creating_new_entry (host : string)
  | added_latency (latency : float) (host : string)
  | no_latency_recorded (host : string)
  | updated_last_check (t : float)
  | failed_to_measure (host : string) (e : Py.exn)
  | dns_resolution_failed (hostname : string) (e : Py.exn)
  | ssl_check_failed (hostname : string) (e : Py.exn).

(** What a monitor does to its environment, in the order it does it. *)
Inductive event : Type :=
  | Log (l : level) (m : message)
  | TcpConnect (host : string) (port : Z)
  | GetHostByName (hostname : string)
  | SslContext
  | CreateConnection (hostname : string) (port : Z)
  | WrapSocket (hostname : string)
  | GetPeerCert
  | NetIfStats.

(** How the interpreter's [sum] adds floats: one after the other from
    left to right (CPython up to 3.11), or with Neumaier's compensation
    (CPython 3.12 and later). *)
Inductive summation : Type := left_to_right | compensated.

(** The environment answers each interaction; the answer may depend on how
    many interactions came before ([nat]) and on the arguments.  A network
    call answers [None] on success or the exception it raises.  The
    environment also fixes the interpreter's float summation. *)
Record Env : Type := mk_Env {
  time_time : nat -> float;
  datetime_now : nat -> Z;
  tcp_connect : nat -> string -> Z -> float -> option Py.exn;
  gethostbyname_ex :
    nat -> string -> Py.exn + (string * list string * list string);
  create_default_context : nat -> option Py.exn;
  create_connection : nat -> string -> Z -> option Py.exn;
  wrap_socket : nat -> string -> option Py.exn;
  getpeercert : nat -> Py.exn + string;
  load_der_x509_certificate : string -> Py.exn + X509.Certificate;
  isoformat : datetime -> string;
  net_if_stats : nat -> Py.exn + gmap string nic;
  float_summation : summation
}.

Record World : Type := mk_World {
  steps : nat;
  trace : list event
}.

(** A monitor object in its world. *)
Record Sys (O : Type) : Type := mk_Sys {
  self : O;
  world : World
}.
Arguments mk_Sys {O} self world.
Arguments self {O} s.
Arguments world {O} s.

Section Primitives.
Context {O : Type}.
#[local] Open Scope py_scope.

Definition get_self : M (Sys O) O := gets self.

Definition set_self (o : O) : M (Sys O) unit :=
  modify (fun s => mk_Sys o (world s)).

(** Count one interaction and return its index. *)
Definition tick : M (Sys O) nat :=
  fun s =>
    (Ret (steps (world s)),
     mk_Sys (self s) (mk_World (S (steps (world s))) (trace (world s)))).

Definition emit (ev : event) : M (Sys O) unit :=
  modify (fun s =>
    mk_Sys (self s) (mk_World (steps (world s)) (trace (world s) ++ [ev]))).

Definition log (l : level) (m : message) : M (Sys O) unit := emit (Log l m).
Definition debug := log DEBUG.
Definition info := log INFO.
Definition warning := log WARNING.
Definition error := log ERROR.

(** Run a fallible answer of the environment. *)
Definition answer {A} (r : Py.exn + A) : M (Sys O) A :=
  match r with
  | inl e => raise e
  | inr a => ret a
  end.

Definition outcome (r : option Py.exn) : M (Sys O) unit :=
  match r with
  | Some e => raise e
  | None => ret tt
  end.

Variable env : Env.

(** [time.time()] *)
Definition time (_ : unit) : M (Sys O) float :=
  n <- tick ;; ret (time_time env n).

(** [datetime.now()]: a naive local datetime. *)
Definition now (_ : unit) : M (Sys O) datetime :=
  n <- tick ;; ret (mk_datetime (datetime_now env n) None).
End Primitives.

(** ** Python built-ins on lists of floats *)

(** [l[-n:]]: the last [n] items, all of [l] when it has fewer. *)
Definition slice_last {A} (n : nat) (l : list A) : list A :=
  drop (length l - n) l.

(** [min(l)] and [max(l)] for a non-empty [x :: xs]: the running value is
    replaced by an item that compares strictly below (above) it. *)
Definition py_min (x : float) (xs : list float) : float :=
  fold_left (fun m y => if (y <? m)%float then y else m) xs x.

Definition py_max (x : float) (xs : list float) : float :=
  fold_left (fun m y => if (m <? y)%float then y else m) xs x.

(** [sum(l)] up to CPython 3.11: the items added from left to right,
    starting from 0. *)
Definition py_sum (l : list float) : float :=
  fold_left (fun acc y => (acc + y)%float) l 0%float.

(** [sum(l)] as CPython 3.12 and later compute it for floats: Neumaier's
    compensated summation, the running compensation added at the end. *)
Definition neumaier_step (st : float * float) (x : float) : float * float :=
  let '(s, c) := st in
  let t := (s + x)%float in
  let c' :=
    if (abs x <=? abs s)%float then (c + ((s - t) + x))%float
    else (c + ((x - t) + s))%float in
  (t, c').

Definition py_sum_compensated (l : list float) : float :=
  let '(s, c) := fold_left neumaier_step l (0%float, 0%float) in
  if (negb (is_zero c) && is_finite c)%bool then (s + c)%float else s.

(** [sum(l)] as the interpreter of [env] computes it. *)
Definition builtin_sum (env : Env) (l : list float) : float :=
  match float_summation env with
  | left_to_right => py_sum l
  | compensated => py_sum_compensated l
  end.

(** [float(n)] for a list length. *)
Definition float_of_nat (n : nat) : float :=
  PrimFloat.of_uint63 (Uint63.of_Z (Z.of_nat n)).

(** * LatencyMonitor *)

Module LatencyMonitor.

Record t : Type := mk {
  _latencies : gmap string (list float);
  _last_check : float;
  _check_interval : float
}.

Definition __init__ : t := mk ∅ 0%float 5%float.

Record Stats : Type := mk_Stats { min : float; max : float; avg : float }.

Section Methods.
Variable env : Env.
#[local] Open Scope py_scope.

Definition set_latencies (f : gmap string (list float) -> gmap string (list float))
  : M (Sys t) unit :=
  o <- get_self ;;
  set_self (mk (f (_latencies o)) (_last_check o) (_check_interval o)).

Definition set_last_check (v : float) : M (Sys t) unit :=
  o <- get_self ;;
  set_self (mk (_latencies o) v (_check_interval o)).

(** The [try] block creates the socket, sets its timeout and connects: one
    interaction, answered by [tcp_connect]. *)
Definition measure_latency (host : string) (port : Z) (timeout : float)
  : M (Sys t) (option float) :=
  start_time <- time env tt ;;
  try_except
    (n <- tick ;;
     emit (TcpConnect host port) ;;;
     outcome (tcp_connect env n host port timeout) ;;;
     end_time <- time env tt ;;
     let latency := (end_time - start_time)%float in
     ret (Some latency))
    [Py.TimeoutError; Py.OSError]
    (fun e => warning (failed_to_measure host e) ;;; ret None).

Definition track_latency (host : string) (port : Z) : M (Sys t) unit :=
  current_time <- time env tt ;;
  o <- get_self ;;
  debug (track_latency_called host current_time) ;;;
  debug (last_check_was (_last_check o)) ;;;
  debug (check_interval_is (_check_interval o)) ;;;
  if (current_time - _last_check o <? _check_interval o)%float then
    debug skipping_measurement
  else
    latency <- measure_latency host port 1%float ;;
    debug (measured_latency latency) ;;;
    match latency with
    | Some latency =>
        o <- get_self ;;
        match _latencies o !! host with
        | None =>
            debug (creating_new_entry host) ;;;
            set_latencies (insert host [])
        | Some _ => ret tt
        end ;;;
        set_latencies (alter (fun h => h ++ [latency]) host) ;;;
        debug (added_latency latency host) ;;;
        (* Keep only last 100 measurements *)
        set_latencies (alter (slice_last 100) host)
    | None => debug (no_latency_recorded host)
    end ;;;
    set_last_check current_time ;;;
    debug (updated_last_check current_time).

(** [get_latency_stats] only reads the object. *)
Definition get_latency_stats (o : t) (host : string) : option Stats :=
  match _latencies o !! host with
  | None => None
  | Some [] => None
  | Some (x :: xs) =>
      let latencies := x :: xs in
      Some (mk_Stats (py_min x xs) (py_max x xs)
              (builtin_sum env latencies / float_of_nat (length latencies))%float)
  end.

End Methods.
End LatencyMonitor.

(** * The cache statistics shared by DNSMonitor and SSLCertMonitor *)

Record CacheStats : Type := mk_CacheStats { size : nat; entries : nat }.

Section Cache.
Context {O V : Type}.
Variable env : Env.
#[local] Open Scope py_scope.

(** [sum(1 for _, (_, timestamp) in items if time.time() - timestamp < ttl)]:
    the clock is read once per item. *)
Fixpoint count_fresh (ttl : float) (items : list (string * (V * float)))
  : M (Sys O) nat :=
  match items with
  | [] => ret 0%nat
  | (_, (_, timestamp)) :: rest =>
      t <- time env tt ;;
      n <- count_fresh ttl rest ;;
      ret (if (t - timestamp <? ttl)%float then S n else n)
  end.

Definition cache_stats (cache : gmap string (V * float)) (ttl : float)
  : M (Sys O) CacheStats :=
  let items := map_to_list cache in
  n <- count_fresh ttl items ;;
  ret (mk_CacheStats (length items) n).
End Cache.

(** * DNSMonitor *)

Module DNSMonitor.

Record t : Type := mk {
  _cache : gmap string (list string * float);
  _cache_ttl : float
}.

Definition __init__ : t := mk ∅ 300%float.

Section Methods.
Variable env : Env.
#[local] Open Scope py_scope.

Definition set_cache
    (f : gmap string (list string * float) -> gmap string (list string * float))
  : M (Sys t) unit :=
  o <- get_self ;;
  set_self (mk (f (_cache o)) (_cache_ttl o)).

(** The part of [resolve] after the cache check: "Perform DNS lookup". *)
Definition lookup_and_store (hostname : string) : M (Sys t) (option (list string)) :=
  n <- tick ;;
  emit (GetHostByName hostname) ;;;
  r <- answer (gethostbyname_ex env n hostname) ;;
  let ips := snd r in
  t <- time env tt ;;
  set_cache (insert hostname (ips, t)) ;;;
  ret (Some ips).

Definition resolve (hostname : string) : M (Sys t) (option (list string)) :=
  try_except
    (o <- get_self ;;
     match _cache o !! hostname with
     | Some (ips, timestamp) =>
         t <- time env tt ;;
         if (t - timestamp <? _cache_ttl o)%float then ret (Some ips)
         else lookup_and_store hostname
     | None => lookup_and_store hostname
     end)
    [Py.socket_gaierror]
    (fun e => error (dns_resolution_failed hostname e) ;;; ret None).

Definition get_cache_stats : M (Sys t) CacheStats :=
  o <- get_self ;;
  cache_stats env (_cache o) (_cache_ttl o).

End Methods.
End DNSMonitor.

(** * SSLCertMonitor *)

Module SSLCertMonitor.

Record t : Type := mk {
  _cache : gmap string (X509.Certificate * float);
  _cache_ttl : float
}.

Definition __init__ : t := mk ∅ 3600%float.

Record NameInfo : Type := mk_NameInfo {
  common_name : string;
  organization : string
}.

Record CertInfo : Type := mk_CertInfo {
  subject : NameInfo;
  issuer : NameInfo;
  not_before : string;
  not_after : string;
  days_until_expiry : Z;
  serial_number : Z;
  version : string
}.

Section Methods.
Variable env : Env.
#[local] Open Scope py_scope.

Definition set_cache
    (f : gmap string (X509.Certificate * float) ->
         gmap string (X509.Certificate * float))
  : M (Sys t) unit :=
  o <- get_self ;;
  set_self (mk (f (_cache o)) (_cache_ttl o)).

(** [attrs.get_attributes_for_oid(oid)[0].value], [default] when there is
    no such attribute. *)
Definition get_attr_value (attrs : X509.Name) (o : X509.oid) (default : string)
  : M (Sys t) string :=
  try_except
    (match X509.get_attributes_for_oid attrs o with
     | v :: _ => ret v
     | [] => raise (Py.mk_exn Py.IndexError "list index out of range")
     end)
    [Py.IndexError; Py.AttributeError]
    (fun _ => ret default).

Definition _get_cert_info (cert : X509.Certificate) : M (Sys t) CertInfo :=
  let subject := X509.subject cert in
  let issuer := X509.issuer cert in
  (* Calculate days until expiration *)
  now <- now env tt ;;
  delta <- answer (datetime_sub (X509.not_valid_after_utc cert) now) ;;
  let days_until_expiry := timedelta_days delta in
  s_cn <- get_attr_value subject X509.COMMON_NAME "Unknown" ;;
  s_org <- get_attr_value subject X509.ORGANIZATION_NAME "Unknown" ;;
  i_cn <- get_attr_value issuer X509.COMMON_NAME "Unknown" ;;
  i_org <- get_attr_value issuer X509.ORGANIZATION_NAME "Unknown" ;;
  ret (mk_CertInfo
         (mk_NameInfo s_cn s_org)
         (mk_NameInfo i_cn i_org)
         (isoformat env (X509.not_valid_before_utc cert))
         (isoformat env (X509.not_valid_after_utc cert))
         days_until_expiry
         (X509.serial_number cert)
         (X509.version_name cert)).

(** The part of [check_certificate] after the cache check: "Fetch
    certificate".  Leaving the [with] blocks closes the sockets. *)
Definition fetch (hostname : string) (port : Z) : M (Sys t) (option CertInfo) :=
  n <- tick ;;
  emit SslContext ;;;
  outcome (create_default_context env n) ;;;
  n <- tick ;;
  emit (CreateConnection hostname port) ;;;
  outcome (create_connection env n hostname port) ;;;
  n <- tick ;;
  emit (WrapSocket hostname) ;;;
  outcome (wrap_socket env n hostname) ;;;
  n <- tick ;;
  emit GetPeerCert ;;;
  cert <- answer (getpeercert env n) ;;
  x509_cert <- answer (load_der_x509_certificate env cert) ;;
  t <- time env tt ;;
  set_cache (insert hostname (x509_cert, t)) ;;;
  cert_info <- _get_cert_info x509_cert ;;
  ret (Some cert_info).

(** The [try] block of [check_certificate]. *)
Definition check_certificate_try (hostname : string) (port : Z)
  : M (Sys t) (option CertInfo) :=
  o <- get_self ;;
  match _cache o !! hostname with
  | Some (cert, timestamp) =>
      t <- time env tt ;;
      if (t - timestamp <? _cache_ttl o)%float then
        cert_info <- _get_cert_info cert ;;
        ret (Some cert_info)
      else fetch hostname port
  | None => fetch hostname port
  end.

Definition check_certificate (hostname : string) (port : Z)
  : M (Sys t) (option CertInfo) :=
  try_except
    (check_certificate_try hostname port)
    [Py.Exception]
    (fun e => error (ssl_check_failed hostname e) ;;; ret None).

Definition get_cache_stats : M (Sys t) CacheStats :=
  o <- get_self ;;
  cache_stats env (_cache o) (_cache_ttl o).

End Methods.
End SSLCertMonitor.

(** * NetworkMetrics *)

Module NetworkMetrics.

Record InterfaceStats : Type := mk_InterfaceStats {
  bytes_sent : Z;
  bytes_recv : Z;
  packets_sent : Z;
  packets_recv : Z;
  errin : Z;
  errout : Z;
  dropin : Z;
  dropout : Z
}.

Definition zero_stats : InterfaceStats := mk_InterfaceStats 0 0 0 0 0 0 0 0.

Section Methods.
Variable env : Env.
#[local] Open Scope py_scope.

(** [addrs.name]: the attribute, or [AttributeError]. *)
Definition getattr (addrs : nic) (name : string) : M (Sys unit) Z :=
  match addrs !! name with
  | Some v => ret v
  | None => raise (Py.mk_exn Py.AttributeError name)
  end.

Definition read_counters (addrs : nic) : M (Sys unit) InterfaceStats :=
  a <- getattr addrs "bytes_sent" ;;
  b <- getattr addrs "bytes_recv" ;;
  c <- getattr addrs "packets_sent" ;;
  d <- getattr addrs "packets_recv" ;;
  e <- getattr addrs "errin" ;;
  f <- getattr addrs "errout" ;;
  g <- getattr addrs "dropin" ;;
  h <- getattr addrs "dropout" ;;
  ret (mk_InterfaceStats a b c d e f g h).

(** The body of the [for] loop over the items, [stats] being the dictionary
    built so far. *)
Fixpoint collect (items : list (string * nic))
    (stats : gmap string InterfaceStats)
  : M (Sys unit) (gmap string InterfaceStats) :=
  match items with
  | [] => ret stats
  | (interface, addrs) :: rest =>
      stats' <-
        try_except
          (st <- read_counters addrs ;; ret (<[interface := st]> stats))
          [Py.AttributeError]
          (fun _ =>
             (* Some interfaces might not have all stats *)
             ret (<[interface := zero_stats]> stats)) ;;
      collect rest stats'
  end.

Definition get_interface_stats : M (Sys unit) (gmap string InterfaceStats) :=
  n <- tick ;;
  emit NetIfStats ;;;
  ifs <- answer (net_if_stats env n) ;;
  collect (map_to_list ifs) ∅.

End Methods.
End NetworkMetrics.

(** * Connections *)

(** An item of [psutil.net_connections()].  An address is a pair of an IP
    and a port, or the empty tuple ([None]); the process id may be
    [None]. *)
Module Psutil.

Definition addr : Type := option (string * Z).

Record sconn : Type := mk_sconn {
  fd : Z;
  family : Z;
  type : Z;
  laddr : addr;
  raddr : addr;
  status : string;
  pid : option Z
}.

End Psutil.

(** [NetworkMetrics.get_connections], with the answers of
    [psutil.net_connections()] as a parameter. *)
Module NetworkMetrics_connections.

Record Connection : Type := mk_Connection {
  fd : Z;
  family : Z;
  type : Z;
  local_addr : Psutil.addr;
  remote_addr : Psutil.addr;
  status : string;
  pid : option Z
}.

Section Methods.
Variable net_connections : nat -> Py.exn + list Psutil.sconn.
#[local] Open Scope py_scope.

Definition get_connections : M (Sys unit) (list Connection) :=
  n <- tick ;;
  conns <- answer (net_connections n) ;;
  ret (foldl
         (fun connections conn =>
            connections ++
            [mk_Connection (Psutil.fd conn) (Psutil.family conn)
               (Psutil.type conn) (Psutil.laddr conn) (Psutil.raddr conn)
               (Psutil.status conn) (Psutil.pid conn)])
         [] conns).

End Methods.
End NetworkMetrics_connections.

(** * ConnectionMonitor *)

Module ConnectionMonitor.

Record Details : Type := mk_Details {
  local : Psutil.addr;
  remote : Psutil.addr;
  pid : option Z
}.

Record t : Type := mk {
  _connections : gmap string (list Details);
  _last_check : float;
  _check_interval : float
}.

Definition __init__ : t := mk ∅ 0%float 1%float.

Section Methods.
Variable env : Env.
Variable net_connections : nat -> Py.exn + list Psutil.sconn.
#[local] Open Scope py_scope.

Definition set_connections
    (f : gmap string (list Details) -> gmap string (list Details))
  : M (Sys t) unit :=
  o <- get_self ;;
  set_self (mk (f (_connections o)) (_last_check o) (_check_interval o)).

Definition set_last_check (v : float) : M (Sys t) unit :=
  o <- get_self ;;
  set_self (mk (_connections o) v (_check_interval o)).

(** The [for] loop of [update] over the connections still to visit. *)
Fixpoint regroup (conns : list Psutil.sconn) : M (Sys t) unit :=
  match conns with
  | [] => ret tt
  | conn :: rest =>
      let status := Psutil.status conn in
      o <- get_self ;;
      match _connections o !! status with
      | None => set_connections (insert status [])
      | Some _ => ret tt
      end ;;;
      set_connections
        (alter (fun l => l ++ [mk_Details (Psutil.laddr conn)
                                 (Psutil.raddr conn) (Psutil.pid conn)])
           status) ;;;
      regroup rest
  end.

Definition update : M (Sys t) unit :=
  current_time <- time env tt ;;
  o <- get_self ;;
  if (current_time - _last_check o <? _check_interval o)%float then ret tt
  else
    set_connections (fun _ => ∅) ;;;
    n <- tick ;;
    conns <- answer (net_connections n) ;;
    regroup conns ;;;
    set_last_check current_time.

Definition get_connection_summary : M (Sys t) (gmap string nat) :=
  update ;;;
  o <- get_self ;;
  ret (length <$> _connections o).

Definition get_connections_by_status (status : string)
  : M (Sys t) (list Details) :=
  update ;;;
  o <- get_self ;;
  ret (default [] (_connections o !! status)).

End Methods.
End ConnectionMonitor.

(** * The command line of [diagnostics.network] *)

Module NetworkCLI.

(** What [parser.parse_args()] returns: the command with its options, or
    no command. *)
Inductive Args : Type :=
  | no_command
  | metrics_command (json : bool)
  | connections_command (status : option string) (json : bool)
  | latency_command (host : string) (port : Z) (count : Z) (json : bool)
  | dns_command (hostname : string) (json : bool)
  | ssl_command (hostname : string) (port : Z) (json : bool).

(** The dictionaries handed to [format_json]. *)
Inductive document : Type :=
  | metrics_data (interfaces : gmap string NetworkMetrics.InterfaceStats)
      (connections : list NetworkMetrics_connections.Connection)
  | status_data (conns : list ConnectionMonitor.Details)
  | summary_data (summary : gmap string nat)
  | latency_data (host : string) (port : Z) (measurements : list float)
      (stats : LatencyMonitor.Stats)
  | dns_data (hostname : string) (ip_addresses : list string)
      (cache_stats : CacheStats)
  | ssl_data (hostname : string) (port : Z)
      (certificate : SSLCertMonitor.CertInfo) (cache_stats : CacheStats).

(** A call of [print], one constructor per call in [main], with the values
    it formats. *)
Inductive printed : Type :=
  | help
  | formatted_json (data : document)
  | interfaces_header
  | interface_header (interface : string)
  | stat_line (key : string) (value : Z)
  | active_connections_header
  | connection_line (conn : NetworkMetrics_connections.Connection)
  | status_header (status : string)
  | details_line (conn : ConnectionMonitor.Details)
  | summary_header
  | summary_line (status : string) (count : nat)
  | latency_header (host : string)
  | min_line (v : float)
  | max_line (v : float)
  | avg_line (v : float)
  | measurements_header
  | measurement_line (i : nat) (latency : float)
  | dns_header (hostname : string)
  | addresses_header
  | address_line (ip : string)
  | cache_header
  | cache_line (key : string) (value : nat)
  | certificate_header (hostname : string)
  | subject_header
  | issuer_header
  | name_line (key value : string)
  | validity_header
  | not_before_line (v : string)
  | not_after_line (v : string)
  | serial_line (v : Z)
  | version_line (v : string)
  | failed_latency (host : string)
  | failed_resolve (hostname : string)
  | failed_certificate (hostname : string)
  | cancelled
  | error_line (e : Py.exn).

Record Console : Type := mk_Console {
  stdout : list printed;
  stderr : list printed
}.

Section Main.
Variable env : Env.
Variable net_connections : nat -> Py.exn + list Psutil.sconn.
#[local] Open Scope py_scope.

Definition print (p : printed) : M (Sys Console) unit :=
  modify (fun s =>
    mk_Sys (mk_Console (stdout (self s) ++ [p]) (stderr (self s))) (world s)).

Definition print_err (p : printed) : M (Sys Console) unit :=
  modify (fun s =>
    mk_Sys (mk_Console (stdout (self s)) (stderr (self s) ++ [p])) (world s)).

(** A method call on a local object [o]: it runs in the world of the
    command line and returns its result with the object as it leaves
    it. *)
Definition call {O A} (o : O) (m : M (Sys O) A) : M (Sys Console) (A * O) :=
  fun s =>
    match m (mk_Sys o (world s)) with
    | (Ret a, s') => (Ret (a, self s'), mk_Sys (self s) (world s'))
    | (Raise e, s') => (Raise e, mk_Sys (self s) (world s'))
    end.

(** [for x in l: body x] *)
Fixpoint for_each {A} (l : list A) (body : A -> M (Sys Console) unit)
  : M (Sys Console) unit :=
  match l with
  | [] => ret tt
  | x :: rest => body x ;;; for_each rest body
  end.

(** [try: body except KeyboardInterrupt: h1 except Exception as e: h2 e]:
    the first clause that matches handles the exception. *)
Definition try_except2 {A} (body : M (Sys Console) A)
    (h1 : M (Sys Console) A) (h2 : Py.exn -> M (Sys Console) A)
  : M (Sys Console) A :=
  fun s =>
    match body s with
    | (Ret a, s') => (Ret a, s')
    | (Raise e, s') =>
        if Py.isinstance e Py.KeyboardInterrupt then h1 s'
        else if Py.isinstance e Py.Exception then h2 e s'
        else (Raise e, s')
    end.

(** [min(l)], [max(l)]: [ValueError] on an empty list. *)
Definition min_of (l : list float) : M (Sys Console) float :=
  match l with
  | [] => raise (Py.mk_exn Py.ValueError "min() arg is an empty sequence")
  | x :: xs => ret (py_min x xs)
  end.

Definition max_of (l : list float) : M (Sys Console) float :=
  match l with
  | [] => raise (Py.mk_exn Py.ValueError "max() arg is an empty sequence")
  | x :: xs => ret (py_max x xs)
  end.

(** [sum(l) / len(l)]: [ZeroDivisionError], an [ArithmeticError], on an
    empty list. *)
Definition avg_of (l : list float) : M (Sys Console) float :=
  match l with
  | [] => raise (Py.mk_exn Py.ArithmeticError "division by zero")
  | _ => ret (builtin_sum env l / float_of_nat (length l))%float
  end.

(** The [for _ in range(count)] loop of the latency command with [n] turns
    to go: [None] when a turn printed the failure and returned 1. *)
Fixpoint measure_all (n : nat) (host : string) (port : Z)
    (monitor : LatencyMonitor.t) (latencies : list float)
  : M (Sys Console) (option (list float)) :=
  match n with
  | O => ret (Some latencies)
  | S n' =>
      r <- call monitor (LatencyMonitor.measure_latency env host port 1%float) ;;
      match r.1 with
      | Some latency =>
          measure_all n' host port r.2 (latencies ++ [latency])
      | None =>
          print_err (failed_latency host) ;;;
          ret None
      end
  end.

Definition print_cache_stats (st : CacheStats) : M (Sys Console) unit :=
  print cache_header ;;;
  print (cache_line "size" (size st)) ;;;
  print (cache_line "entries" (entries st)).

Definition print_interface_stats (stats : NetworkMetrics.InterfaceStats)
  : M (Sys Console) unit :=
  print (stat_line "bytes_sent" (NetworkMetrics.bytes_sent stats)) ;;;
  print (stat_line "bytes_recv" (NetworkMetrics.bytes_recv stats)) ;;;
  print (stat_line "packets_sent" (NetworkMetrics.packets_sent stats)) ;;;
  print (stat_line "packets_recv" (NetworkMetrics.packets_recv stats)) ;;;
  print (stat_line "errin" (NetworkMetrics.errin stats)) ;;;
  print (stat_line "errout" (NetworkMetrics.errout stats)) ;;;
  print (stat_line "dropin" (NetworkMetrics.dropin stats)) ;;;
  print (stat_line "dropout" (NetworkMetrics.dropout stats)).

(** The truth value of [args.status]: an absent or empty string is
    false. *)
Definition truthy (status : option string) : bool :=
  match status with
  | Some (String _ _) => true
  | _ => false
  end.

(** The [try] block of [main]. *)
Definition command (args : Args) : M (Sys Console) Z :=
  match args with
  | no_command => ret 0
  | metrics_command json =>
      a <- call tt (NetworkMetrics.get_interface_stats env) ;;
      b <- call tt (NetworkMetrics_connections.get_connections net_connections) ;;
      (if json then print (formatted_json (metrics_data a.1 b.1))
       else
         print interfaces_header ;;;
         for_each (map_to_list a.1)
           (fun item =>
              print (interface_header item.1) ;;;
              print_interface_stats item.2) ;;;
         print active_connections_header ;;;
         for_each b.1 (fun conn => print (connection_line conn))) ;;;
      ret 0
  | connections_command status json =>
      let monitor := ConnectionMonitor.__init__ in
      match truthy status, status with
      | true, Some st =>
          r <- call monitor
                 (ConnectionMonitor.get_connections_by_status env
                    net_connections st) ;;
          (if json then print (formatted_json (status_data r.1))
           else
             print (status_header st) ;;;
             for_each r.1 (fun conn => print (details_line conn))) ;;;
          ret 0
      | _, _ =>
          r <- call monitor
                 (ConnectionMonitor.get_connection_summary env net_connections) ;;
          (if json then print (formatted_json (summary_data r.1))
           else
             print summary_header ;;;
             for_each (map_to_list r.1)
               (fun item => print (summary_line item.1 item.2))) ;;;
          ret 0
      end
  | latency_command host port count json =>
      let monitor := LatencyMonitor.__init__ in
      r <- measure_all (Z.to_nat count) host port monitor [] ;;
      match r with
      | None => ret 1
      | Some latencies =>
          lo <- min_of latencies ;;
          hi <- max_of latencies ;;
          mean <- avg_of latencies ;;
          let stats := LatencyMonitor.mk_Stats lo hi mean in
          (if json then
             print (formatted_json (latency_data host port latencies stats))
           else
             print (latency_header host) ;;;
             print (min_line lo) ;;;
             print (max_line hi) ;;;
             print (avg_line mean) ;;;
             print measurements_header ;;;
             for_each (imap (fun i l => (S i, l)) latencies)
               (fun item => print (measurement_line item.1 item.2))) ;;;
          ret 0
      end
  | dns_command hostname json =>
      let monitor := DNSMonitor.__init__ in
      r <- call monitor (DNSMonitor.resolve env hostname) ;;
      match r.1 with
      | None =>
          print_err (failed_resolve hostname) ;;;
          ret 1
      | Some ips =>
          st <- call r.2 (DNSMonitor.get_cache_stats env) ;;
          (if json then print (formatted_json (dns_data hostname ips st.1))
           else
             print (dns_header hostname) ;;;
             print addresses_header ;;;
             for_each ips (fun ip => print (address_line ip)) ;;;
             print_cache_stats st.1) ;;;
          ret 0
      end
  | ssl_command hostname port json =>
      let monitor := SSLCertMonitor.__init__ in
      r <- call monitor (SSLCertMonitor.check_certificate env hostname port) ;;
      match r.1 with
      | None =>
          print_err (failed_certificate hostname) ;;;
          ret 1
      | Some cert_info =>
          st <- call r.2 (SSLCertMonitor.get_cache_stats env) ;;
          (if json then
             print (formatted_json (ssl_data hostname port cert_info st.1))
           else
             print (certificate_header hostname) ;;;
             print subject_header ;;;
             print (name_line "common_name"
                      (SSLCertMonitor.common_name
                         (SSLCertMonitor.subject cert_info))) ;;;
             print (name_line "organization"
                      (SSLCertMonitor.organization
                         (SSLCertMonitor.subject cert_info))) ;;;
             print issuer_header ;;;
             print (name_line "common_name"
                      (SSLCertMonitor.common_name
                         (SSLCertMonitor.issuer cert_info))) ;;;
             print (name_line "organization"
                      (SSLCertMonitor.organization
                         (SSLCertMonitor.issuer cert_info))) ;;;
             print validity_header ;;;
             print (not_before_line (SSLCertMonitor.not_before cert_info)) ;;;
             print (not_after_line (SSLCertMonitor.not_after cert_info)) ;;;
             print (serial_line (SSLCertMonitor.serial_number cert_info)) ;;;
             print (version_line (SSLCertMonitor.version cert_info)) ;;;
             print_cache_stats st.1) ;;;
          ret 0
      end
  end.

(** [main], from the parsed arguments on. *)
Definition main (args : Args) : M (Sys Console) Z :=
  match args with
  | no_command => print help ;;; ret 0
  | _ =>
      try_except2 (command args)
        (print_err cancelled ;;; ret 130)
        (fun e => print_err (error_line e) ;;; ret 1)
  end.

End Main.

(** An empty console at interaction 0. *)
Definition fresh : Sys Console := mk_Sys (mk_Console [] []) (mk_World 0 []).

End NetworkCLI.

(** * Vocabulary of the statements *)

(** The interactions of a trace with the environment, log entries left
    out. *)
Definition is_io (ev : event) : bool :=
  match ev with
  | Log _ _ => false
  | _ => true
  end.

Definition io_events (tr : list event) : list event :=
  filter (fun ev => is_io ev = true) tr.

Module LatencySpec.
Import LatencyMonitor.

Section Spec.
Variable env : Env.

(** The reading of [time.time()] a call made in state [s] starts with. *)
Definition call_time (s : Sys t) : float := time_time env (steps (world s)).

(** The call made in state [s] falls inside the rate-limit window. *)
Definition suppressed (s : Sys t) : bool :=
  (call_time s - _last_check (self s) <? _check_interval (self s))%float.

(** What the connection attempt of a [track_latency] call made in state [s]
    is answered. *)
Definition connect_answer (s : Sys t) (host : string) (port : Z)
  : option Py.exn :=
  tcp_connect env (S (S (steps (world s)))) host port 1%float.

(** The latency a successful [track_latency] call made in state [s]
    measures. *)
Definition measured (s : Sys t) : float :=
  (time_time env (S (S (S (steps (world s))))) -
   time_time env (S (steps (world s))))%float.

(** The states of a monitor: a fresh one, then any calls of its methods,
    whether they return or raise. *)
Inductive reachable : Sys t -> Prop :=
  | reachable_init n : reachable (mk_Sys __init__ (mk_World n []))
  | reachable_track s host port r s' :
      reachable s ->
      track_latency env host port s = (r, s') ->
      reachable s'
  | reachable_measure s host port timeout r s' :
      reachable s ->
      measure_latency env host port timeout s = (r, s') ->
      reachable s'.

(** A call of one of the two methods that act on the world. *)
Inductive call : Type :=
  | track (host : string) (port : Z)
  | measure (host : string) (port : Z) (timeout : float).

(** The state a call made in state [s] leaves, whether it returns or
    raises. *)
Definition perform (c : call) (s : Sys t) : Sys t :=
  match c with
  | track host port => (track_latency env host port s).2
  | measure host port timeout => (measure_latency env host port timeout s).2
  end.

(** A sequence of calls, each made in the state the one before it left. *)
Definition perform_all (calls : list call) (s : Sys t) : Sys t :=
  foldl (fun s c => perform c s) s calls.

(** The value a call made in state [s] measures for [host] and has to
    record: the latency of the connection of a [track_latency] call for
    that host which is not held back and whose connection succeeds. *)
Definition sample (c : call) (s : Sys t) (host : string) : option float :=
  match c with
  | track h port =>
      if decide (h = host) then
        if suppressed s then None
        else
          match connect_answer s h port with
          | None => Some (measured s)
          | Some _ => None
          end
      else None
  | measure _ _ _ => None
  end.

(** The values a sequence of calls starting in state [s] measures for
    [host], in the order of the measurements. *)
Fixpoint samples (calls : list call) (s : Sys t) (host : string)
  : list float :=
  match calls with
  | [] => []
  | c :: rest => option_list (sample c s host) ++ samples rest (perform c s) host
  end.

End Spec.

(** A fresh monitor at interaction 0. *)
Definition fresh : Sys t := mk_Sys __init__ (mk_World 0 []).

(** The history kept for [host], empty when there is none. *)
Definition history (o : t) (host : string) : list float :=
  default [] (_latencies o !! host).

(** The entry of a host for which the values [l] were measured: none when
    there was no measurement, the last 100 values otherwise. *)
Definition entry_of (l : list float) : option (list float) :=
  match l with
  | [] => None
  | _ => Some (drop (length l - 100) l)
  end.

End LatencySpec.

Module DNSSpec.
Import DNSMonitor.

Section Spec.
Variable env : Env.

(** The addresses a [resolve] call made in state [s] finds in the cache:
    those of an entry that is fresh at the clock reading of the call. *)
Definition cached (s : Sys t) (hostname : string) : option (list string) :=
  match _cache (self s) !! hostname with
  | Some (ips, timestamp) =>
      if (time_time env (steps (world s)) - timestamp <? _cache_ttl (self s))%float
      then Some ips else None
  | None => None
  end.

(** The index of the lookup of a [resolve] call made in state [s]: the
    clock is read first when the name has an entry. *)
Definition lookup_index (s : Sys t) (hostname : string) : nat :=
  match _cache (self s) !! hostname with
  | Some _ => S (steps (world s))
  | None => steps (world s)
  end.

(** The time stamp of the entry a [resolve] call made in state [s] answers
    from when it returns addresses: that of the fresh entry it finds, or
    else the reading of the clock that follows its lookup. *)
Definition fetched_at (s : Sys t) (hostname : string) : float :=
  match _cache (self s) !! hostname with
  | Some (_, timestamp) =>
      if (time_time env (steps (world s)) - timestamp <? _cache_ttl (self s))%float
      then timestamp
      else time_time env (S (lookup_index s hostname))
  | None => time_time env (S (lookup_index s hostname))
  end.

Inductive reachable : Sys t -> Prop :=
  | reachable_init n : reachable (mk_Sys __init__ (mk_World n []))
  | reachable_resolve s hostname r s' :
      reachable s ->
      resolve env hostname s = (r, s') ->
      reachable s'
  | reachable_stats s r s' :
      reachable s ->
      get_cache_stats env s = (r, s') ->
      reachable s'.

End Spec.

(** A fresh monitor at interaction 0. *)
Definition fresh : Sys t := mk_Sys __init__ (mk_World 0 []).

End DNSSpec.

Module SSLSpec.
Import SSLCertMonitor.

Section Spec.
Variable env : Env.

(** The certificate a [check_certificate] call made in state [s] finds in
    the cache: that of an entry that is fresh at the clock reading of the
    call. *)
Definition cached (s : Sys t) (hostname : string) : option X509.Certificate :=
  match _cache (self s) !! hostname with
  | Some (cert, timestamp) =>
      if (time_time env (steps (world s)) - timestamp <? _cache_ttl (self s))%float
      then Some cert else None
  | None => None
  end.

(** The reading of [datetime.now()] of a call made in state [s] that finds
    its certificate in the cache. *)
Definition read_time (s : Sys t) : Z := datetime_now env (S (steps (world s))).

(** The failure classes of the monitor's own I/O: [OSError] for connection
    and handshake failures ([socket.timeout], [socket.gaierror] and
    [ssl.SSLError] derive from it), [ValueError] for a certificate that
    does not parse. *)
Definition io_failure (e : Py.exn) : bool :=
  Py.matches [Py.OSError; Py.ValueError] e.

(** The policy "only the monitor's own I/O failures are swallowed", for one
    call: another exception raised in the [try] block reaches the caller. *)
Definition swallows_only_io_failures (s : Sys t) (hostname : string) (port : Z)
  : Prop :=
  forall e s',
    check_certificate_try env hostname port s = (Raise e, s') ->
    io_failure e = false ->
    exists s'', check_certificate env hostname port s = (Raise e, s'').

End Spec.

(** A fresh monitor at interaction 0. *)
Definition fresh : Sys t := mk_Sys __init__ (mk_World 0 []).

End SSLSpec.

(** An item of a cache is fresh at clock reading [t]. *)
Definition fresh_at {V} (ttl t : float) (item : string * (V * float)) : bool :=
  (t - item.2.2 <? ttl)%float.

Module SSLMoreSpec.
Import SSLCertMonitor.

(** The index of the first interaction of the fetch of a
    [check_certificate] call made in state [s]: the clock is read first
    when the name has an entry. *)
Definition fetch_index (s : Sys t) (hostname : string) : nat :=
  match _cache (self s) !! hostname with
  | Some _ => S (steps (world s))
  | None => steps (world s)
  end.

(** [v] is what a name field shows for the attributes [attrs] and the OID
    [o]: the value of the first attribute with that OID, or ["Unknown"] when
    there is none. *)
Definition shows (attrs : X509.Name) (o : X509.oid) (v : string) : Prop :=
  (v = "Unknown" /\ Forall (fun a => a.1 <> o) attrs) \/
  (exists before after,
     attrs = before ++ (o, v) :: after /\
     Forall (fun a => a.1 <> o) before).

End SSLMoreSpec.

Module MetricsSpec.
Import NetworkMetrics.

(** The attributes [get_interface_stats] reads. *)
Definition counters : list string :=
  ["bytes_sent"; "bytes_recv"; "packets_sent"; "packets_recv";
   "errin"; "errout"; "dropin"; "dropout"].

(** The object lacks one of them, or all. *)
Definition lacks_counter (addrs : nic) : Prop :=
  exists name, name ∈ counters /\ addrs !! name = None.

(** The record of an interface object: its counters when it has them all,
    zeros otherwise. *)
Definition record_of (addrs : nic) : InterfaceStats :=
  match addrs !! "bytes_sent", addrs !! "bytes_recv",
        addrs !! "packets_sent", addrs !! "packets_recv",
        addrs !! "errin", addrs !! "errout",
        addrs !! "dropin", addrs !! "dropout" with
  | Some a, Some b, Some c, Some d, Some e, Some f, Some g, Some h =>
      mk_InterfaceStats a b c d e f g h
  | _, _, _, _, _, _, _, _ => zero_stats
  end.

(** A static method has no object. *)
Definition fresh : Sys unit := mk_Sys tt (mk_World 0 []).

End MetricsSpec.

Module ConnectionSpec.
Import ConnectionMonitor.

Section Spec.
Variable env : Env.

(** The reading of [time.time()] a call made in state [s] starts with. *)
Definition call_time (s : Sys t) : float := time_time env (steps (world s)).

(** The call made in state [s] falls inside the refresh interval. *)
Definition limited (s : Sys t) : bool :=
  (call_time s - _last_check (self s) <? _check_interval (self s))%float.

End Spec.

Definition details (conn : Psutil.sconn) : Details :=
  mk_Details (Psutil.laddr conn) (Psutil.raddr conn) (Psutil.pid conn).

(** The connections of an enumeration that have a status, in the order of
    the enumeration. *)
Definition with_status (status : string) (conns : list Psutil.sconn)
  : list Details :=
  details <$> filter (fun conn => Psutil.status conn = status) conns.

(** The record [get_connections] makes of a connection. *)
Definition connection_of (conn : Psutil.sconn)
  : NetworkMetrics_connections.Connection :=
  NetworkMetrics_connections.mk_Connection (Psutil.fd conn)
    (Psutil.family conn) (Psutil.type conn) (Psutil.laddr conn)
    (Psutil.raddr conn) (Psutil.status conn) (Psutil.pid conn).

(** The number of connections a summary counts. *)
Definition total (summary : gmap string nat) : nat :=
  sum_list (snd <$> map_to_list summary).

(** A fresh monitor at interaction 0. *)
Definition fresh : Sys t := mk_Sys __init__ (mk_World 0 []).

End ConnectionSpec.

(** * Concrete environments *)

Module Examples.

(** A certificate valid for 365 days from microsecond [issued], its dates
    naive or aware (with UTC offset 0) as [tz] says. *)
Definition certificate (issued : Z) (tz : option Z) : X509.Certificate :=
  X509.mk_Certificate
    [(X509.COMMON_NAME, "example.org")]
    [(X509.COMMON_NAME, "Example CA"); (X509.ORGANIZATION_NAME, "Example")]
    (mk_datetime issued tz)
    (mk_datetime (issued + 365 * micros_per_day) tz)
    123456789
    "v3".

Definition epoch : Z := 1700000000 * 1000000.

(** What [socket.gethostbyname_ex] answers for a name that resolves. *)
Definition addresses : string * list string * list string :=
  ("example.org", [], ["192.0.2.1"; "192.0.2.2"]).

(** Two interfaces: one with all its counters, one with none. *)
Definition interfaces : gmap string nic :=
  {[ "eth0" := {[ "bytes_sent" := 1000; "bytes_recv" := 2000;
                  "packets_sent" := 10; "packets_recv" := 20;
                  "errin" := 0; "errout" := 0;
                  "dropin" := 0; "dropout" := 0 ]};
     "tun0" := ∅ ]}.

(** An environment whose clock advances one second per interaction, from
    1000 s, in which every network call succeeds and the peer presents
    [cert]; a date is rendered as its count of microseconds; floats are
    summed from left to right. *)
Definition quiet_with (cert : X509.Certificate) : Env :=
  mk_Env
    (fun n => (1000 + float_of_nat n)%float)
    (fun n => epoch + Z.of_nat n * 1000000)
    (fun _ _ _ _ => None)
    (fun _ _ => inr addresses)
    (fun _ => None)
    (fun _ _ _ => None)
    (fun _ _ => None)
    (fun _ => inr "der")
    (fun _ => inr cert)
    (fun d => pretty (dt_micros d))
    (fun _ => inr interfaces)
    left_to_right.

Definition quiet : Env := quiet_with (certificate epoch None).

(** [env] with other answers to the TCP connection attempts, to the name
    resolutions, or to the creation of the SSL context. *)
Definition with_tcp_connect (env : Env) (r : option Py.exn) : Env :=
  mk_Env (time_time env) (datetime_now env) (fun _ _ _ _ => r)
    (gethostbyname_ex env) (create_default_context env)
    (create_connection env) (wrap_socket env) (getpeercert env)
    (load_der_x509_certificate env) (isoformat env) (net_if_stats env)
    (float_summation env).

Definition with_gethostbyname_ex (env : Env)
    (r : nat -> Py.exn + (string * list string * list string)) : Env :=
  mk_Env (time_time env) (datetime_now env) (tcp_connect env)
    (fun n _ => r n) (create_default_context env)
    (create_connection env) (wrap_socket env) (getpeercert env)
    (load_der_x509_certificate env) (isoformat env) (net_if_stats env)
    (float_summation env).

Definition with_create_default_context (env : Env) (r : option Py.exn) : Env :=
  mk_Env (time_time env) (datetime_now env) (tcp_connect env)
    (gethostbyname_ex env) (fun _ => r)
    (create_connection env) (wrap_socket env) (getpeercert env)
    (load_der_x509_certificate env) (isoformat env) (net_if_stats env)
    (float_summation env).

(** [quiet] under an interpreter that sums floats with compensation. *)
Definition modern : Env :=
  mk_Env (time_time quiet) (datetime_now quiet) (tcp_connect quiet)
    (gethostbyname_ex quiet) (create_default_context quiet)
    (create_connection quiet) (wrap_socket quiet) (getpeercert quiet)
    (load_der_x509_certificate quiet) (isoformat quiet) (net_if_stats quiet)
    compensated.

(** [quiet] with a clock that reads the square of the number of
    interactions, in seconds: no two connections take the same time. *)
Definition drifting : Env :=
  mk_Env (fun n => float_of_nat (n * n)) (datetime_now quiet)
    (tcp_connect quiet) (gethostbyname_ex quiet)
    (create_default_context quiet) (create_connection quiet)
    (wrap_socket quiet) (getpeercert quiet)
    (load_der_x509_certificate quiet) (isoformat quiet) (net_if_stats quiet)
    (float_summation quiet).

Definition refused : Py.exn :=
  Py.mk_exn Py.ConnectionRefusedError "Connection refused".

Definition unreachable : Env := with_tcp_connect quiet (Some refused).

Definition name_not_known : Py.exn :=
  Py.mk_exn Py.socket_gaierror "[Errno -2] Name or service not known".

(** An environment in which no name resolves. *)
Definition no_dns : Env :=
  with_gethostbyname_ex quiet (fun _ => inl name_not_known).

(** A DNS monitor holding one entry, fetched at 0 s and stale by the time
    the clock of [quiet] starts. *)
Definition stale_dns : Sys DNSMonitor.t :=
  mk_Sys
    (DNSMonitor.mk {[ "example.org" := (["192.0.2.1"], 0%float) ]} 300%float)
    (mk_World 0 []).

(** A latency monitor with the samples of the repository's test. *)
Definition sampled : LatencyMonitor.t :=
  LatencyMonitor.mk {[ "google.com" := [0.1; 0.2; 0.3]%float ]} 0%float 5%float.

Definition out_of_memory : Py.exn := Py.mk_exn Py.MemoryError "out of memory".

(** An environment in which the SSL context cannot be allocated. *)
Definition no_memory : Env :=
  with_create_default_context quiet (Some out_of_memory).

(** A certificate monitor that cached [cert] at 999 s, one second before
    the clock of [quiet] starts. *)
Definition holding (cert : X509.Certificate) : Sys SSLCertMonitor.t :=
  mk_Sys
    (SSLCertMonitor.mk {[ "example.org" := (cert, 999%float) ]} 3600%float)
    (mk_World 0 []).

(** A connection monitor refreshed at 900 s, long before the clock of
    [quiet] starts, with one listening socket in its snapshot. *)
Definition watching_late : Sys ConnectionMonitor.t :=
  mk_Sys
    (ConnectionMonitor.mk
       {[ "LISTEN" := [ConnectionMonitor.mk_Details (Some ("0.0.0.0", 22))
                         None (Some 1)] ]}
       900%float 1%float)
    (mk_World 0 []).

Definition bad_host_name : Py.exn :=
  Py.mk_exn Py.UnicodeError "encoding with 'idna' codec failed".

(** An environment in which the host name of a connection cannot be
    encoded. *)
Definition unencodable : Env := with_tcp_connect quiet (Some bad_host_name).

(** [env] with a clock that stands still at [t]. *)
Definition with_frozen_clock (env : Env) (t : float) : Env :=
  mk_Env (fun _ => t) (datetime_now env) (tcp_connect env)
    (gethostbyname_ex env) (create_default_context env)
    (create_connection env) (wrap_socket env) (getpeercert env)
    (load_der_x509_certificate env) (isoformat env) (net_if_stats env)
    (float_summation env).

(** A DNS monitor with one entry fetched at 900 s and one at 100 s. *)
Definition two_names : Sys DNSMonitor.t :=
  mk_Sys
    (DNSMonitor.mk
       {[ "new.example" := (["192.0.2.1"], 900%float);
          "old.example" := (["192.0.2.2"], 100%float) ]}
       300%float)
    (mk_World 0 []).

(** An environment in which every connection for a certificate is
    refused. *)
Definition no_tls : Env :=
  mk_Env (time_time quiet) (datetime_now quiet) (tcp_connect quiet)
    (gethostbyname_ex quiet) (create_default_context quiet)
    (fun _ _ _ => Some refused) (wrap_socket quiet) (getpeercert quiet)
    (load_der_x509_certificate quiet) (isoformat quiet) (net_if_stats quiet)
    (float_summation quiet).

Definition control_c : Py.exn := Py.mk_exn Py.KeyboardInterrupt "interrupted".

(** An environment in which the user interrupts every connection
    attempt. *)
Definition interrupted : Env := with_tcp_connect quiet (Some control_c).

Definition unknown_host : Py.exn :=
  Py.mk_exn Py.socket_herror "[Errno 1] Unknown host".

(** An environment in which every lookup fails with [socket.herror]. *)
Definition host_error : Env :=
  with_gethostbyname_ex quiet (fun _ => inl unknown_host).

(** Three sockets: two established connections around a listening one. *)
Definition sockets : list Psutil.sconn :=
  [Psutil.mk_sconn 3 2 1 (Some ("127.0.0.1", 8080)) (Some ("127.0.0.1", 12345))
     "ESTABLISHED" (Some 1234);
   Psutil.mk_sconn 4 2 1 (Some ("0.0.0.0", 80)) None "LISTEN" (Some 5678);
   Psutil.mk_sconn 5 2 1 (Some ("127.0.0.1", 8080)) (Some ("127.0.0.1", 12346))
     "ESTABLISHED" None].

Definition listing : nat -> Py.exn + list Psutil.sconn :=
  fun _ => inr sockets.

Definition access_denied : Py.exn := Py.mk_exn Py.Exception "psutil.AccessDenied".

Definition no_listing : nat -> Py.exn + list Psutil.sconn :=
  fun _ => inl access_denied.

(** A connection monitor refreshed at 999.5 s, half a second before the
    clock of [quiet] starts, with one listening socket in its snapshot. *)
Definition watching : Sys ConnectionMonitor.t :=
  mk_Sys
    (ConnectionMonitor.mk
       {[ "LISTEN" := [ConnectionMonitor.mk_Details (Some ("0.0.0.0", 22))
                         None (Some 1)] ]}
       999.5%float 1%float)
    (mk_World 0 []).

End Examples.

(** * Part II: properties *)

(** ** The exception hierarchy *)

Module PyFacts.
Import Py.

(** Every class derives from [BaseException]: the walk up the bases is
    long enough. *)
Lemma issubclass_BaseException c : issubclass c BaseException = true.
Proof. by destruct c. Qed.

Lemma issubclass_refl c : issubclass c c = true.
Proof. by destruct c. Qed.

(** More fuel finds no more base classes. *)
Lemma issubclass_fuel_enough c d :
  issubclass_fuel 5 c d = issubclass c d.
Proof. by destruct c, d. Qed.

(** The classes [except Exception] lets through. *)
Lemma not_an_Exception c :
  issubclass c Exception = false <->
  c = BaseException \/ c = KeyboardInterrupt \/ c = SystemExit \/
  c = GeneratorExit.
Proof.
  split.
  - destruct c; cbn; intros H; try discriminate H; tauto.
  - intros [H|[H|[H|H]]]; by subst c.
Qed.

(** [except (socket.timeout, socket.error)] is [except OSError]. *)
Lemma matches_timeout_or_OSError e :
  matches [TimeoutError; OSError] e = isinstance e OSError.
Proof. destruct e as [c msg]. by destruct c. Qed.

End PyFacts.

(** ** LatencyMonitor *)

Module LatencyFacts.
Import LatencyMonitor LatencySpec.

Ltac run :=
  cbv [track_latency measure_latency set_latencies set_last_check
       debug warning error log emit time now tick get_self set_self
       gets modify bind ret raise try_except outcome answer];
  cbn [self world steps trace _latencies _last_check _check_interval
       fst snd].

Section Facts.
Variable env : Env.

Lemma track_latency_suppressed host port s :
  suppressed env s = true ->
  track_latency env host port s =
    (Ret tt,
     mk_Sys (self s)
       (mk_World (S (steps (world s)))
          (trace (world s) ++
           [Log DEBUG (track_latency_called host (call_time env s));
            Log DEBUG (last_check_was (_last_check (self s)));
            Log DEBUG (check_interval_is (_check_interval (self s)));
            Log DEBUG skipping_measurement]))).
Proof.
  unfold suppressed, call_time. intros Hs. run. rewrite Hs. run.
  by rewrite <- !app_assoc.
Qed.

Lemma store_sample (m : gmap string (list float)) host latency :
  alter (slice_last 100) host
    (alter (fun h => h ++ [latency]) host
       (match m !! host with
        | None => <[host := []]> m
        | Some _ => m
        end)) =
  <[host := slice_last 100 (default [] (m !! host) ++ [latency])]> m.
Proof.
  apply map_eq. intros k. destruct (decide (k = host)) as [->|Hne].
  - rewrite lookup_insert_eq, !lookup_alter_eq.
    destruct (m !! host) as [h|] eqn:Hh; simpl.
    + by rewrite Hh.
    + by rewrite lookup_insert_eq.
  - rewrite lookup_insert_ne, !lookup_alter_ne by done.
    destruct (m !! host); [done|]. by rewrite lookup_insert_ne.
Qed.

Lemma track_latency_measured host port s :
  suppressed env s = false ->
  connect_answer env s host port = None ->
  track_latency env host port s =
    (Ret tt,
     mk_Sys
       (mk (<[host := slice_last 100
                        (history (self s) host ++ [measured env s])]>
              (_latencies (self s)))
           (call_time env s) (_check_interval (self s)))
       (mk_World (S (S (S (S (steps (world s))))))
          (trace (world s) ++
           [Log DEBUG (track_latency_called host (call_time env s));
            Log DEBUG (last_check_was (_last_check (self s)));
            Log DEBUG (check_interval_is (_check_interval (self s)));
            TcpConnect host port;
            Log DEBUG (measured_latency (Some (measured env s)))] ++
           match _latencies (self s) !! host with
           | None => [Log DEBUG (creating_new_entry host)]
           | Some _ => []
           end ++
           [Log DEBUG (added_latency (measured env s) host);
            Log DEBUG (updated_last_check (call_time env s))]))).
Proof.
  unfold suppressed, connect_answer, call_time, measured, history.
  intros Hs Hc. run. rewrite Hs. run. rewrite Hc. run.
  rewrite <- (store_sample _ host).
  destruct (_latencies (self s) !! host) as [h|] eqn:Hh; run.
  - by rewrite <- !app_assoc.
  - by rewrite <- !app_assoc.
Qed.

Lemma track_latency_failed host port s e :
  suppressed env s = false ->
  connect_answer env s host port = Some e ->
  Py.matches [Py.TimeoutError; Py.OSError] e = true ->
  track_latency env host port s =
    (Ret tt,
     mk_Sys
       (mk (_latencies (self s)) (call_time env s) (_check_interval (self s)))
       (mk_World (S (S (S (steps (world s)))))
          (trace (world s) ++
           [Log DEBUG (track_latency_called host (call_time env s));
            Log DEBUG (last_check_was (_last_check (self s)));
            Log DEBUG (check_interval_is (_check_interval (self s)));
            TcpConnect host port;
            Log WARNING (failed_to_measure host e);
            Log DEBUG (measured_latency None);
            Log DEBUG (no_latency_recorded host);
            Log DEBUG (updated_last_check (call_time env s))]))).
Proof.
  unfold suppressed, connect_answer, call_time.
  intros Hs Hc He. run. rewrite Hs. run. rewrite Hc. run. rewrite He. run.
  by rewrite <- !app_assoc.
Qed.

Lemma track_latency_raised host port s e :
  suppressed env s = false ->
  connect_answer env s host port = Some e ->
  Py.matches [Py.TimeoutError; Py.OSError] e = false ->
  track_latency env host port s =
    (Raise e,
     mk_Sys (self s)
       (mk_World (S (S (S (steps (world s)))))
          (trace (world s) ++
           [Log DEBUG (track_latency_called host (call_time env s));
            Log DEBUG (last_check_was (_last_check (self s)));
            Log DEBUG (check_interval_is (_check_interval (self s)));
            TcpConnect host port]))).
Proof.
  unfold suppressed, connect_answer, call_time.
  intros Hs Hc He. run. rewrite Hs. run. rewrite Hc. run. rewrite He. run.
  by rewrite <- !app_assoc.
Qed.

(** [measure_latency] leaves the object alone. *)
Lemma measure_latency_self host port timeout s :
  self (measure_latency env host port timeout s).2 = self s.
Proof.
  run.
  destruct (tcp_connect env (S (steps (world s))) host port timeout) as [e|];
    run; [by destruct (Py.matches _ e)|done].
Qed.

(** Appending to the kept window and cutting again is cutting the whole
    sequence once. *)
Lemma slice_last_snoc {A} (n : nat) (l : list A) (x : A) :
  slice_last n (slice_last n l ++ [x]) = slice_last n (l ++ [x]).
Proof.
  unfold slice_last.
  rewrite !length_app, length_drop, !drop_app, drop_drop, length_drop.
  simpl. f_equal; f_equal; lia.
Qed.

(** The interval of a monitor is the one it was created with. *)
Lemma reachable_interval s :
  reachable env s -> _check_interval (self s) = 5%float.
Proof.
  induction 1 as [n | s host port r s' _ IH Hrun
                    | s host port timeout r s' _ IH Hrun].
  - done.
  - destruct (suppressed env s) eqn:Hs.
    { rewrite track_latency_suppressed in Hrun by done.
      by injection Hrun as <- <-. }
    destruct (connect_answer env s host port) as [e|] eqn:Hc.
    { destruct (Py.matches [Py.TimeoutError; Py.OSError] e) eqn:He.
      - rewrite (track_latency_failed _ _ _ e) in Hrun by done.
        by injection Hrun as <- <-.
      - rewrite (track_latency_raised _ _ _ e) in Hrun by done.
        by injection Hrun as <- <-. }
    rewrite track_latency_measured in Hrun by done.
    by injection Hrun as <- <-.
  - assert (s' = (measure_latency env host port timeout s).2) as ->
      by (by rewrite Hrun).
    by rewrite measure_latency_self.
Qed.

(** What a call does to the entry of a host: it stores the value it
    measures for that host after those kept, cut to the last 100, and
    leaves the entry as it is when it measures nothing for the host. *)
Lemma perform_entry c s h :
  _latencies (self (perform env c s)) !! h =
    match sample env c s h with
    | Some x => Some (slice_last 100 (history (self s) h ++ [x]))
    | None => _latencies (self s) !! h
    end.
Proof.
  destruct c as [host port|host port timeout]; cbn [perform sample].
  - destruct (suppressed env s) eqn:Hs.
    { rewrite track_latency_suppressed by done. cbn [snd self].
      by destruct (decide (host = h)). }
    destruct (connect_answer env s host port) as [e|] eqn:Hc.
    { destruct (Py.matches [Py.TimeoutError; Py.OSError] e) eqn:He.
      - rewrite (track_latency_failed _ _ _ e) by done. cbn [snd self _latencies].
        by destruct (decide (host = h)).
      - rewrite (track_latency_raised _ _ _ e) by done. cbn [snd self].
        by destruct (decide (host = h)). }
    rewrite track_latency_measured by done. cbn [snd self _latencies].
    destruct (decide (host = h)) as [->|Hne].
    + by rewrite lookup_insert_eq.
    + by rewrite lookup_insert_ne.
  - by rewrite measure_latency_self.
Qed.

Lemma entry_of_snoc l x :
  Some (slice_last 100 (default [] (entry_of l) ++ [x])) = entry_of (l ++ [x]).
Proof.
  unfold entry_of at 2. destruct (l ++ [x]) as [|y l'] eqn:Hl.
  { by destruct l. }
  rewrite <- Hl. f_equal. destruct l as [|z l]; [done|].
  cbn [entry_of default]. apply (slice_last_snoc 100).
Qed.

(** The entry of a host follows the values measured for it. *)
Lemma perform_all_entry calls s h l :
  _latencies (self s) !! h = entry_of l ->
  _latencies (self (perform_all env calls s)) !! h =
    entry_of (l ++ samples env calls s h).
Proof.
  revert s l. induction calls as [|c rest IH]; intros s l Hl.
  - cbn. by rewrite app_nil_r.
  - cbn [perform_all foldl samples]. rewrite app_assoc.
    apply (IH (perform env c s)). rewrite perform_entry.
    destruct (sample env c s h) as [x|]; cbn [option_list].
    + unfold history. rewrite Hl. apply entry_of_snoc.
    + by rewrite app_nil_r.
Qed.

Lemma fresh_entry n calls h :
  _latencies (self (perform_all env calls (mk_Sys __init__ (mk_World n []))))
    !! h =
    entry_of (samples env calls (mk_Sys __init__ (mk_World n [])) h).
Proof. by apply (perform_all_entry calls _ h []). Qed.

(** C4. Whatever sequence of calls a new monitor has served, the history
    it keeps for a host is made of the values measured for that host, by
    the [track_latency] calls that were not held back and whose
    connection succeeded: it is the end of the sequence of these values,
    in the order they were measured, and holds all of them up to 100 and
    the last 100 beyond; it never has more than 100 items. *)
Theorem history_is_last_100_samples n calls host :
  exists evicted,
    samples env calls (mk_Sys __init__ (mk_World n [])) host =
      evicted ++
      history (self (perform_all env calls (mk_Sys __init__ (mk_World n []))))
        host /\
    length
      (history (self (perform_all env calls (mk_Sys __init__ (mk_World n []))))
         host) =
      Nat.min 100
        (length (samples env calls (mk_Sys __init__ (mk_World n [])) host)) /\
    (length
       (history (self (perform_all env calls (mk_Sys __init__ (mk_World n []))))
          host) <= 100)%nat.
Proof.
  unfold history. rewrite fresh_entry.
  set (l := samples env calls _ host).
  exists (take (length l - 100) l).
  assert (default [] (entry_of l) = drop (length l - 100) l) as ->
    by (by destruct l).
  rewrite take_drop, length_drop. split; [done|]. lia.
Qed.

(** A call inside the window only writes to the debug log. *)
Lemma track_latency_noop host port s :
  suppressed env s = true ->
  exists s',
    track_latency env host port s = (Ret tt, s') /\
    self s' = self s /\
    io_events (trace (world s')) = io_events (trace (world s)).
Proof.
  intros Hs. eexists. split; [by apply track_latency_suppressed|].
  split; [done|]. cbn [world trace]. unfold io_events.
  rewrite filter_app. cbn. by rewrite app_nil_r.
Qed.

(** A call outside the window that returns leaves its call time as the
    monitor's one time stamp, whichever host it was for. *)
Lemma track_latency_stamps host port s s1 :
  suppressed env s = false ->
  track_latency env host port s = (Ret tt, s1) ->
  _last_check (self s1) = call_time env s /\
  _check_interval (self s1) = _check_interval (self s).
Proof.
  intros Hs Hrun.
  destruct (connect_answer env s host port) as [e|] eqn:Hc.
  - destruct (Py.matches [Py.TimeoutError; Py.OSError] e) eqn:He.
    + rewrite (track_latency_failed _ _ _ e) in Hrun by done.
      by injection Hrun as <-.
    + by rewrite (track_latency_raised _ _ _ e) in Hrun.
  - rewrite track_latency_measured in Hrun by done. by injection Hrun as <-.
Qed.

(** C5 (amended). After a [track_latency] call for host A that was not
    skipped and returned, a call for any host B made while less than 5.0
    seconds have passed since that call does nothing: it returns, the
    monitor (every history) is as it was, and no connection is attempted.
    The one time stamp is that of the last call that was not skipped. *)
Theorem track_latency_window_is_shared s hostA portA s1 :
  reachable env s ->
  suppressed env s = false ->
  track_latency env hostA portA s = (Ret tt, s1) ->
  forall (w : World) hostB portB,
    (call_time env (mk_Sys (self s1) w) - call_time env s <? 5)%float = true ->
    exists s2,
      track_latency env hostB portB (mk_Sys (self s1) w) = (Ret tt, s2) /\
      self s2 = self s1 /\
      io_events (trace (world s2)) = io_events (trace w).
Proof.
  intros Hr Hs Hrun w hostB portB Hlt.
  destruct (track_latency_stamps _ _ _ _ Hs Hrun) as [Hstamp Hint].
  pose proof (reachable_interval s Hr) as H5.
  apply track_latency_noop. unfold suppressed. cbn [self].
  by rewrite Hstamp, Hint, H5.
Qed.

(** C10. A [track_latency] call that was not skipped and whose measurement
    failed returns with the histories as they were and its call time as the
    time stamp; any later call, for any host, made while less than 5.0
    seconds have passed since then does nothing. *)
Theorem failed_measurement_starts_window s host port e :
  reachable env s ->
  suppressed env s = false ->
  connect_answer env s host port = Some e ->
  Py.matches [Py.TimeoutError; Py.OSError] e = true ->
  exists s1,
    track_latency env host port s = (Ret tt, s1) /\
    _latencies (self s1) = _latencies (self s) /\
    _last_check (self s1) = call_time env s /\
    forall (w : World) hostB portB,
      (call_time env (mk_Sys (self s1) w) - call_time env s <? 5)%float = true ->
      exists s2,
        track_latency env hostB portB (mk_Sys (self s1) w) = (Ret tt, s2) /\
        self s2 = self s1 /\
        io_events (trace (world s2)) = io_events (trace w).
Proof.
  intros Hr Hs Hc He. eexists. split; [by apply (track_latency_failed _ _ _ e)|].
  split; [done|]. split; [done|].
  intros w hostB portB Hlt. pose proof (reachable_interval s Hr) as H5.
  apply track_latency_noop. unfold suppressed. cbn [self _last_check _check_interval].
  by rewrite H5.
Qed.

End Facts.

(** 153 calls under a clock that reads the square of the number of
    interactions: the first three are held back, the others measure 20,
    36, 52, ... seconds, 150 values of which the monitor keeps the last
    100, from 820 s on, in that order. *)
Example history_after_150_samples :
  length (samples Examples.drifting (replicate 153 (track "a.example" 80))
            fresh "a.example") = 150%nat /\
  history
    (self (perform_all Examples.drifting (replicate 153 (track "a.example" 80))
             fresh))
    "a.example" =
    (fun i => float_of_nat (16 * i + 20)) <$> seq 50 100.
Proof. vm_compute. split; reflexivity. Qed.

(** C5 (as stated, refuted). Three calls, at 1000 s, 1004 s and 1005 s of
    the clock.  The second is skipped.  The third, for another host, comes
    one second after the second, the last [track_latency] call before it,
    and is not skipped: five seconds have passed since the first. *)
Lemma call_after_skipped_call_measures :
  let s1 := (track_latency Examples.quiet "a.example" 80 fresh).2 in
  let s2 := (track_latency Examples.quiet "a.example" 80 s1).2 in
  let s3 := (track_latency Examples.quiet "b.example" 80 s2).2 in
  call_time Examples.quiet fresh = 1000%float /\
  suppressed Examples.quiet fresh = false /\
  call_time Examples.quiet s1 = 1004%float /\
  suppressed Examples.quiet s1 = true /\
  call_time Examples.quiet s2 = 1005%float /\
  (call_time Examples.quiet s2 - call_time Examples.quiet s1 <? 5)%float = true /\
  suppressed Examples.quiet s2 = false /\
  history (self s2) "b.example" = [] /\
  history (self s3) "b.example" = [2%float] /\
  io_events (trace (world s2)) = [TcpConnect "a.example" 80] /\
  io_events (trace (world s3)) =
    [TcpConnect "a.example" 80; TcpConnect "b.example" 80].
Proof. vm_compute. repeat split; reflexivity. Qed.

Lemma track_latency_window_is_shared_witness :
  let s1 := (track_latency Examples.quiet "a.example" 80 fresh).2 in
  exists s2,
    track_latency Examples.quiet "b.example" 443
      (mk_Sys (self s1) (world s1)) = (Ret tt, s2) /\
    self s2 = self s1 /\
    io_events (trace (world s2)) = io_events (trace (world s1)).
Proof.
  intros s1.
  assert (Hs : suppressed Examples.quiet fresh = false)
    by (vm_compute; reflexivity).
  assert (Hrun : track_latency Examples.quiet "a.example" 80 fresh =
                 (Ret tt, s1))
    by (vm_compute; reflexivity).
  apply (track_latency_window_is_shared Examples.quiet fresh "a.example" 80 s1
           (reachable_init _ 0) Hs Hrun (world s1) "b.example" 443).
  vm_compute. reflexivity.
Defined.

Lemma failed_measurement_starts_window_witness :
  exists s1,
    track_latency Examples.unreachable "a.example" 80 fresh = (Ret tt, s1) /\
    _latencies (self s1) = _latencies (self fresh) /\
    _last_check (self s1) = call_time Examples.unreachable fresh /\
    forall (w : World) hostB portB,
      (call_time Examples.unreachable (mk_Sys (self s1) w) -
       call_time Examples.unreachable fresh <? 5)%float = true ->
      exists s2,
        track_latency Examples.unreachable hostB portB (mk_Sys (self s1) w) =
          (Ret tt, s2) /\
        self s2 = self s1 /\
        io_events (trace (world s2)) = io_events (trace w).
Proof.
  apply (failed_measurement_starts_window Examples.unreachable fresh
           "a.example" 80 Examples.refused (reachable_init _ 0)).
  - vm_compute. reflexivity.
  - reflexivity.
  - vm_compute. reflexivity.
Defined.

End LatencyFacts.

(** ** The order of binary64 numbers *)

Section FloatOrder.

Lemma SFltb_irrefl a : SFltb a a = false.
Proof.
  unfold SFltb, SFcompare.
  destruct a as [s|s| |s m e]; try destruct s; try reflexivity;
    rewrite Z.compare_refl; change (Pcompare m m Eq) with (Pos.compare m m);
    by rewrite Pos.compare_refl.
Qed.

Lemma SFltb_trans a b c :
  SFltb a b = true -> SFltb b c = true -> SFltb a c = true.
Proof.
  unfold SFltb, SFcompare.
  destruct a as [sa|sa| |sa ma ea], b as [sb|sb| |sb mb eb],
           c as [sc|sc| |sc mc ec];
    try destruct sa; try destruct sb; try destruct sc;
    try reflexivity; try discriminate.
  all: change (Pcompare ?x ?y Eq) with (Pos.compare x y).
  all: destruct (Z.compare_spec ea eb), (Z.compare_spec eb ec),
         (Z.compare_spec ea ec);
    try reflexivity; try discriminate; try lia; subst.
  all: destruct (Pos.compare_spec ma mb), (Pos.compare_spec mb mc),
         (Pos.compare_spec ma mc);
    try reflexivity; try discriminate; try lia.
Qed.

Lemma ltb_irrefl (x : float) : (x <? x)%float = false.
Proof. rewrite ltb_spec. apply SFltb_irrefl. Qed.

Lemma ltb_trans (x y z : float) :
  (x <? y)%float = true -> (y <? z)%float = true -> (x <? z)%float = true.
Proof. rewrite !ltb_spec. apply SFltb_trans. Qed.

(** Nothing lies below a value that lies below nothing smaller. *)
Lemma not_below_trans (x y z : float) :
  (y <? z)%float = true -> (x <? z)%float = false -> (x <? y)%float = false.
Proof.
  intros Hyz Hxz. destruct (x <? y)%float eqn:Hxy; [|done].
  by rewrite (ltb_trans x y z) in Hxz.
Qed.

Lemma not_above_trans (x y z : float) :
  (x <? y)%float = true -> (x <? z)%float = false -> (y <? z)%float = false.
Proof.
  intros Hxy Hxz. destruct (y <? z)%float eqn:Hyz; [|done].
  by rewrite (ltb_trans x y z) in Hxz.
Qed.

End FloatOrder.

(** ** The statistics of a history *)

Module StatsFacts.
Import LatencyMonitor LatencySpec.

Lemma fold_min_spec (xs : list float) (x : float) :
  let r := fold_left (fun m y => if (y <? m)%float then y else m) xs x in
  r ∈ x :: xs /\
  (forall y, (y <? x)%float = false -> (y <? r)%float = false) /\
  (forall y, y ∈ xs -> (y <? r)%float = false).
Proof.
  revert x. induction xs as [|z xs IH]; intros x; cbn [fold_left].
  - split; [apply list_elem_of_here|]. split; [done|].
    intros y Hy. by apply elem_of_nil in Hy.
  - destruct (IH (if (z <? x)%float then z else x)) as (Hin & Hmono & Hlow).
    assert (Hstep : forall y, (y <? x)%float = false ->
              (y <? (if (z <? x)%float then z else x))%float = false).
    { intros y Hy. destruct (z <? x)%float eqn:Hzx; [|done].
      by apply (not_below_trans y z x). }
    split; [|split].
    + apply elem_of_cons in Hin as [->|Hin].
      * destruct (z <? x)%float.
        -- apply list_elem_of_further, list_elem_of_here.
        -- apply list_elem_of_here.
      * by do 2 apply list_elem_of_further.
    + intros y Hy. by apply Hmono, Hstep.
    + intros y [->|Hy]%elem_of_cons; [|by apply Hlow].
      apply Hmono. destruct (z <? x)%float eqn:Hzx; [apply ltb_irrefl|done].
Qed.

Lemma fold_max_spec (xs : list float) (x : float) :
  let r := fold_left (fun m y => if (m <? y)%float then y else m) xs x in
  r ∈ x :: xs /\
  (forall y, (x <? y)%float = false -> (r <? y)%float = false) /\
  (forall y, y ∈ xs -> (r <? y)%float = false).
Proof.
  revert x. induction xs as [|z xs IH]; intros x; cbn [fold_left].
  - split; [apply list_elem_of_here|]. split; [done|].
    intros y Hy. by apply elem_of_nil in Hy.
  - destruct (IH (if (x <? z)%float then z else x)) as (Hin & Hmono & Hhigh).
    assert (Hstep : forall y, (x <? y)%float = false ->
              ((if (x <? z)%float then z else x) <? y)%float = false).
    { intros y Hy. destruct (x <? z)%float eqn:Hxz; [|done].
      by apply (not_above_trans x z y). }
    split; [|split].
    + apply elem_of_cons in Hin as [->|Hin].
      * destruct (x <? z)%float.
        -- apply list_elem_of_further, list_elem_of_here.
        -- apply list_elem_of_here.
      * by do 2 apply list_elem_of_further.
    + intros y Hy. by apply Hmono, Hstep.
    + intros y [->|Hy]%elem_of_cons; [|by apply Hhigh].
      apply Hmono. destruct (x <? z)%float eqn:Hxz; [apply ltb_irrefl|done].
Qed.

(** [min(l)] is an item of [l] below which no item lies. *)
Lemma py_min_spec (x : float) (xs : list float) :
  py_min x xs ∈ x :: xs /\
  forall y, y ∈ x :: xs -> (y <? py_min x xs)%float = false.
Proof.
  destruct (fold_min_spec xs x) as (Hin & Hmono & Hlow). split; [done|].
  intros y [->|Hy]%elem_of_cons; [|by apply Hlow].
  apply Hmono, ltb_irrefl.
Qed.

(** [max(l)] is an item of [l] above which no item lies. *)
Lemma py_max_spec (x : float) (xs : list float) :
  py_max x xs ∈ x :: xs /\
  forall y, y ∈ x :: xs -> (py_max x xs <? y)%float = false.
Proof.
  destruct (fold_max_spec xs x) as (Hin & Hmono & Hhigh). split; [done|].
  intros y [->|Hy]%elem_of_cons; [|by apply Hhigh].
  apply Hmono, ltb_irrefl.
Qed.

(** C7 (amended). [get_latency_stats] returns [None] exactly when the host
    has no sample.  Otherwise [min] and [max] are items of the whole kept
    history below, respectively above, which no item lies, and [avg] is the
    binary64 quotient of the sum of the history, as the interpreter adds
    binary64 numbers, by the number of items, which need not be the
    arithmetic mean.  For the samples 0.1, 0.2, 0.3 this gives [min] 0.1,
    [max] 0.3 and an [avg] less than 1e-7 away from 0.2 that is not 0.2,
    whichever way the interpreter sums. *)
Theorem latency_stats_of_history (env : Env) (o : t) (host : string) :
  (get_latency_stats env o host = None <-> history o host = []) /\
  (forall st,
     get_latency_stats env o host = Some st ->
     min st ∈ history o host /\
     (forall y, y ∈ history o host -> (y <? min st)%float = false) /\
     max st ∈ history o host /\
     (forall y, y ∈ history o host -> (max st <? y)%float = false) /\
     avg st =
       (builtin_sum env (history o host) /
        float_of_nat (length (history o host)))%float) /\
  (history o host = [0.1; 0.2; 0.3]%float ->
   exists st,
     get_latency_stats env o host = Some st /\
     min st = 0.1%float /\
     max st = 0.3%float /\
     (abs (avg st - 0.2) <? 1e-7)%float = true /\
     (avg st =? 0.2)%float = false).
Proof.
  unfold get_latency_stats, history.
  destruct (_latencies o !! host) as [[|x xs]|]; cbn [default].
  - split; [done|]. split; [done|]. done.
  - split; [done|]. split.
    + intros st [= <-]. cbn [min max avg].
      destruct (py_min_spec x xs) as [Hmin Hlow].
      destruct (py_max_spec x xs) as [Hmax Hhigh]. done.
    + intros [= -> ->]. eexists. split; [done|]. cbn [min max avg].
      unfold builtin_sum.
      destruct (float_summation env); repeat split; vm_compute; reflexivity.
  - split; [done|]. split; [done|]. done.
Qed.

(** C7 (as stated, refuted). For the samples 0.1, 0.2, 0.3 of the
    repository's test the average returned is not 0.2, neither when the
    interpreter sums from left to right (0.20000000000000004) nor when it
    sums with compensation (0.19999999999999998). *)
Lemma average_of_test_samples_is_not_0_2 :
  history Examples.sampled "google.com" = [0.1; 0.2; 0.3]%float /\
  float_summation Examples.quiet = left_to_right /\
  float_summation Examples.modern = compensated /\
  (exists st,
     get_latency_stats Examples.quiet Examples.sampled "google.com" = Some st /\
     avg st = 0.20000000000000004%float /\
     (avg st =? 0.2)%float = false) /\
  (exists st,
     get_latency_stats Examples.modern Examples.sampled "google.com" = Some st /\
     avg st = 0.19999999999999998%float /\
     (avg st =? 0.2)%float = false).
Proof.
  split; [vm_compute; reflexivity|]. split; [reflexivity|].
  split; [reflexivity|].
  split; eexists; (split; [vm_compute; reflexivity|]);
    split; vm_compute; reflexivity.
Qed.

End StatsFacts.

(** ** The cache statistics *)

Section CacheFacts.
Context {O V : Type}.
Variable env : Env.

Lemma count_fresh_le ttl (items : list (string * (V * float))) (s : Sys O) :
  exists n s',
    count_fresh env ttl items s = (Ret n, s') /\
    (n <= length items)%nat /\
    self s' = self s /\
    trace (world s') = trace (world s).
Proof.
  revert s. induction items as [|[k [v timestamp]] rest IH]; intros s.
  - by exists 0%nat, s.
  - cbn [count_fresh]. unfold bind at 1. unfold time, bind, tick, ret.
    cbn [self world steps trace].
    match goal with |- context [count_fresh env ttl rest ?s1] =>
      destruct (IH s1) as (n & s' & -> & Hn & Hself & Htr)
    end.
    eexists _, s'. split; [done|]. split; [|done].
    destruct (_ <? _)%float; cbn [length]; lia.
Qed.

Lemma cache_stats_le (cache : gmap string (V * float)) ttl (s : Sys O) :
  exists st s',
    cache_stats env cache ttl s = (Ret st, s') /\
    (entries st <= size st)%nat /\
    size st = length (map_to_list cache) /\
    self s' = self s /\
    trace (world s') = trace (world s).
Proof.
  unfold cache_stats, bind.
  destruct (count_fresh_le ttl (map_to_list cache) s)
    as (n & s' & -> & Hn & Hself & Htr).
  by eexists _, s'.
Qed.

End CacheFacts.

(** ** DNSMonitor *)

Module DNSFacts.
Import DNSMonitor DNSSpec.

Ltac run :=
  cbv [resolve lookup_and_store set_cache
       debug warning error log emit time now tick get_self set_self
       gets modify bind ret raise try_except outcome answer];
  cbn [self world steps trace _cache _cache_ttl fst snd].

Section Facts.
Variable env : Env.

Lemma resolve_hit hostname s ips :
  cached env s hostname = Some ips ->
  resolve env hostname s =
    (Ret (Some ips),
     mk_Sys (self s) (mk_World (S (steps (world s))) (trace (world s)))).
Proof.
  unfold cached. intros Hc. run.
  destruct (_cache (self s) !! hostname) as [[ips' ts]|]; [|done].
  run. destruct (_ <? _)%float; [|done]. by injection Hc as ->.
Qed.

Lemma cached_lookup hostname s ips :
  cached env s hostname = Some ips ->
  exists timestamp, _cache (self s) !! hostname = Some (ips, timestamp).
Proof.
  unfold cached.
  destruct (_cache (self s) !! hostname) as [[ips' ts]|]; [|done].
  destruct (_ <? _)%float; [|done]. intros [= ->]. by exists ts.
Qed.

Lemma resolve_lookup hostname s r :
  cached env s hostname = None ->
  gethostbyname_ex env (lookup_index s hostname) hostname = inr r ->
  resolve env hostname s =
    (Ret (Some (snd r)),
     mk_Sys
       (mk (<[hostname :=
               (snd r, time_time env (S (lookup_index s hostname)))]>
              (_cache (self s)))
           (_cache_ttl (self s)))
       (mk_World (S (S (lookup_index s hostname)))
          (trace (world s) ++ [GetHostByName hostname]))).
Proof.
  unfold cached, lookup_index. intros Hc Hr. run.
  destruct (_cache (self s) !! hostname) as [[ips' ts]|]; run.
  - destruct (_ <? _)%float; [done|]. run. by rewrite Hr.
  - by rewrite Hr.
Qed.

Lemma resolve_gaierror hostname s e :
  cached env s hostname = None ->
  gethostbyname_ex env (lookup_index s hostname) hostname = inl e ->
  Py.matches [Py.socket_gaierror] e = true ->
  resolve env hostname s =
    (Ret None,
     mk_Sys (self s)
       (mk_World (S (lookup_index s hostname))
          (trace (world s) ++
           [GetHostByName hostname;
            Log ERROR (dns_resolution_failed hostname e)]))).
Proof.
  unfold cached, lookup_index. intros Hc Hr He. run.
  destruct (_cache (self s) !! hostname) as [[ips' ts]|]; run.
  - destruct (_ <? _)%float; [done|]. run. rewrite Hr. run. rewrite He.
    by rewrite <- app_assoc.
  - rewrite Hr. run. rewrite He. by rewrite <- app_assoc.
Qed.

Lemma resolve_raised hostname s e :
  cached env s hostname = None ->
  gethostbyname_ex env (lookup_index s hostname) hostname = inl e ->
  Py.matches [Py.socket_gaierror] e = false ->
  resolve env hostname s =
    (Raise e,
     mk_Sys (self s)
       (mk_World (S (lookup_index s hostname))
          (trace (world s) ++ [GetHostByName hostname]))).
Proof.
  unfold cached, lookup_index. intros Hc Hr He. run.
  destruct (_cache (self s) !! hostname) as [[ips' ts]|]; run.
  - destruct (_ <? _)%float; [done|]. run. rewrite Hr. run. by rewrite He.
  - rewrite Hr. run. by rewrite He.
Qed.

Lemma get_cache_stats_frame s :
  exists st s',
    get_cache_stats env s = (Ret st, s') /\
    (entries st <= size st)%nat /\
    size st = length (map_to_list (_cache (self s))) /\
    self s' = self s.
Proof.
  unfold get_cache_stats, get_self, gets, bind.
  destruct (cache_stats_le env (_cache (self s)) (_cache_ttl (self s)) s)
    as (st & s' & -> & Hle & Hsize & Hself & _).
  by exists st, s'.
Qed.

Lemma reachable_ttl s : reachable env s -> _cache_ttl (self s) = 300%float.
Proof.
  induction 1 as [n | s hostname r s' _ IH Hrun | s r s' _ IH Hrun].
  - done.
  - destruct (cached env s hostname) as [ips|] eqn:Hc.
    { rewrite (resolve_hit _ _ ips) in Hrun by done. by injection Hrun as <- <-. }
    destruct (gethostbyname_ex env (lookup_index s hostname) hostname)
      as [e|a] eqn:Ha.
    + destruct (Py.matches [Py.socket_gaierror] e) eqn:He.
      * rewrite (resolve_gaierror _ _ e) in Hrun by done.
        by injection Hrun as <- <-.
      * rewrite (resolve_raised _ _ e) in Hrun by done.
        by injection Hrun as <- <-.
    + rewrite (resolve_lookup _ _ a) in Hrun by done.
      by injection Hrun as <- <-.
  - destruct (get_cache_stats_frame s) as (st & s2 & Heq & _ & _ & Hself).
    rewrite Heq in Hrun. injection Hrun as <- <-. by rewrite Hself.
Qed.

(** C3. When a [resolve] call has returned the addresses of a host name,
    the cache holds them with the time they were fetched at: the reading
    of the clock that followed the lookup of the call or, when the call was
    itself answered from the cache, the time stamp of the entry it found
    fresh.  A further [resolve] of that name made while the clock reads
    less than 300 s past that time returns the same addresses after
    reading the clock only: no resolution is attempted, nothing is logged,
    the monitor is unchanged. *)
Theorem resolve_again_within_ttl_is_cached s hostname ips s1 (w : World) :
  reachable env s ->
  resolve env hostname s = (Ret (Some ips), s1) ->
  (time_time env (steps w) - fetched_at env s hostname <? 300)%float = true ->
  _cache (self s1) !! hostname = Some (ips, fetched_at env s hostname) /\
  resolve env hostname (mk_Sys (self s1) w) =
    (Ret (Some ips), mk_Sys (self s1) (mk_World (S (steps w)) (trace w))).
Proof.
  intros Hr Hrun Hfresh.
  assert (Hs1 : reachable env s1) by (by eapply reachable_resolve).
  apply reachable_ttl in Hs1 as Httl.
  assert (_cache (self s1) !! hostname =
            Some (ips, fetched_at env s hostname)) as Hentry.
  { destruct (cached env s hostname) as [ips'|] eqn:Hc.
    - rewrite (resolve_hit _ _ ips') in Hrun by done.
      injection Hrun as -> <-. cbn [self]. revert Hc.
      unfold cached, fetched_at.
      destruct (_cache (self s) !! hostname) as [[ips0 ts]|]; [|done].
      destruct (_ - ts <? _)%float; [|done]. congruence.
    - destruct (gethostbyname_ex env (lookup_index s hostname) hostname)
        as [e|a] eqn:Ha.
      + destruct (Py.matches [Py.socket_gaierror] e) eqn:He.
        * by rewrite (resolve_gaierror _ _ e) in Hrun.
        * by rewrite (resolve_raised _ _ e) in Hrun.
      + rewrite (resolve_lookup _ _ a) in Hrun by done.
        injection Hrun as <- <-. cbn [self _cache].
        rewrite lookup_insert_eq. do 2 f_equal. revert Hc.
        unfold cached, fetched_at.
        destruct (_cache (self s) !! hostname) as [[ips0 ts]|]; [|done].
        by destruct (_ - ts <? _)%float. }
  split; [done|].
  apply resolve_hit. unfold cached. cbn [self world].
  by rewrite Hentry, Httl, Hfresh.
Qed.


End Facts.

(** A first call at 1000 s looks the name up and stores the answer with
    the reading 1001 s; a second call, made in the state the first left,
    reads 1002 s and is answered from the cache. *)
Lemma resolve_again_within_ttl_is_cached_witness :
  fetched_at Examples.quiet fresh "example.org" = 1001%float /\
  time_time Examples.quiet
    (steps (world (resolve Examples.quiet "example.org" fresh).2)) =
    1002%float /\
  _cache (self (resolve Examples.quiet "example.org" fresh).2)
    !! "example.org" =
    Some (["192.0.2.1"; "192.0.2.2"],
          fetched_at Examples.quiet fresh "example.org") /\
  resolve Examples.quiet "example.org"
    (mk_Sys (self (resolve Examples.quiet "example.org" fresh).2)
       (world (resolve Examples.quiet "example.org" fresh).2)) =
    (Ret (Some ["192.0.2.1"; "192.0.2.2"]),
     mk_Sys (self (resolve Examples.quiet "example.org" fresh).2)
       (mk_World
          (S (steps (world (resolve Examples.quiet "example.org" fresh).2)))
          (trace (world (resolve Examples.quiet "example.org" fresh).2)))).
Proof.
  split; [vm_compute; reflexivity|]. split; [vm_compute; reflexivity|].
  apply (resolve_again_within_ttl_is_cached Examples.quiet fresh
           "example.org" ["192.0.2.1"; "192.0.2.2"]
           (resolve Examples.quiet "example.org" fresh).2
           (world (resolve Examples.quiet "example.org" fresh).2)
           (reachable_init _ 0)).
  - vm_compute. reflexivity.
  - vm_compute. reflexivity.
Defined.



(** The stale entry of the example is still there after the failed
    resolution, and the size is still one. *)
Example stale_entry_survives_failure :
  match resolve Examples.no_dns "example.org" Examples.stale_dns with
  | (r, s1) =>
      r = Ret None /\
      _cache (self s1) !! "example.org" = Some (["192.0.2.1"], 0%float) /\
      (get_cache_stats Examples.no_dns s1).1 = Ret (mk_CacheStats 1 0)
  end.
Proof. vm_compute. repeat split; reflexivity. Qed.

End DNSFacts.

(** ** SSLCertMonitor *)

Module SSLFacts.
Import SSLCertMonitor SSLSpec.

Ltac run :=
  cbv [check_certificate check_certificate_try _get_cert_info set_cache
       debug warning error log emit time now tick get_self set_self
       gets modify bind ret raise try_except outcome answer];
  cbn [self world steps trace _cache _cache_ttl fst snd].

Section Facts.
Variable env : Env.

Lemma get_attr_value_returns attrs o default (s : Sys t) :
  get_attr_value attrs o default s =
    (Ret (hd default (X509.get_attributes_for_oid attrs o)), s).
Proof.
  unfold get_attr_value, try_except, ret, raise.
  by destruct (X509.get_attributes_for_oid attrs o).
Qed.

(** With a naive expiry date the information is built, from one reading of
    [datetime.now()]. *)
Lemma get_cert_info_naive cert (s : Sys t) :
  dt_utcoffset (X509.not_valid_after_utc cert) = None ->
  exists cert_info,
    _get_cert_info env cert s =
      (Ret cert_info,
       mk_Sys (self s) (mk_World (S (steps (world s))) (trace (world s)))) /\
    days_until_expiry cert_info =
      timedelta_days
        (dt_micros (X509.not_valid_after_utc cert) -
         datetime_now env (steps (world s))) /\
    not_after cert_info = isoformat env (X509.not_valid_after_utc cert) /\
    serial_number cert_info = X509.serial_number cert.
Proof.
  intros Hnaive. unfold _get_cert_info, datetime_sub. rewrite Hnaive.
  cbv [now tick bind ret answer]. cbn [self world steps trace dt_utcoffset].
  rewrite !get_attr_value_returns. by eexists.
Qed.

(** With an aware expiry date the subtraction from the naive
    [datetime.now()] raises. *)
Lemma get_cert_info_aware cert offset (s : Sys t) :
  dt_utcoffset (X509.not_valid_after_utc cert) = Some offset ->
  _get_cert_info env cert s =
    (Raise (Py.mk_exn Py.TypeError
              "can't subtract offset-naive and offset-aware datetimes"),
     mk_Sys (self s) (mk_World (S (steps (world s))) (trace (world s)))).
Proof.
  intros Haware. unfold _get_cert_info, datetime_sub. rewrite Haware.
  by cbv [now tick bind ret answer raise].
Qed.

Lemma timedelta_days_within (delta : Z) :
  364 * micros_per_day <= delta <= 365 * micros_per_day ->
  364 <= timedelta_days delta <= 365.
Proof.
  unfold timedelta_days, micros_per_day. intros H. split.
  - apply Z.div_le_lower_bound; lia.
  - apply Z.div_le_upper_bound; lia.
Qed.

Lemma timedelta_days_negative (delta : Z) :
  delta < 0 -> timedelta_days delta < 0.
Proof.
  unfold timedelta_days, micros_per_day. intros H.
  apply Z.div_lt_upper_bound; lia.
Qed.

(** A certificate found in the cache whose expiry date is naive, as the
    repository's tests build it: the information is returned with
    [days_until_expiry] computed from the stored [not_valid_after_utc] and
    the [datetime.now()] of this call; the environment is only asked for
    the two clocks. *)
Lemma cached_naive_certificate_days s hostname port cert :
  cached env s hostname = Some cert ->
  dt_utcoffset (X509.not_valid_after_utc cert) = None ->
  exists cert_info,
    check_certificate env hostname port s =
      (Ret (Some cert_info),
       mk_Sys (self s)
         (mk_World (S (S (steps (world s)))) (trace (world s)))) /\
    days_until_expiry cert_info =
      timedelta_days
        (dt_micros (X509.not_valid_after_utc cert) - read_time env s) /\
    (364 * micros_per_day <=
       dt_micros (X509.not_valid_after_utc cert) - read_time env s <=
     365 * micros_per_day ->
     364 <= days_until_expiry cert_info <= 365) /\
    (dt_micros (X509.not_valid_after_utc cert) < read_time env s ->
     days_until_expiry cert_info < 0).
Proof.
  unfold cached, read_time. intros Hc Hnaive.
  unfold check_certificate, check_certificate_try, try_except.
  unfold bind at 1. unfold get_self, gets.
  destruct (_cache (self s) !! hostname) as [[cert' ts]|]; [|done].
  unfold bind at 1. unfold time, bind at 1, tick, ret at 1.
  cbn [self world steps trace].
  destruct (_ <? _)%float; [|done]. injection Hc as ->.
  unfold bind.
  match goal with |- context [_get_cert_info env cert ?s1] =>
    destruct (get_cert_info_naive cert s1 Hnaive)
      as (cert_info & -> & Hdays & _)
  end.
  cbn [self world steps trace] in *. exists cert_info. split; [done|].
  split; [done|]. rewrite Hdays. split.
  - apply timedelta_days_within.
  - intros Hpast. apply timedelta_days_negative. lia.
Qed.

(** C1 (what the code does instead). A certificate found in the cache whose
    expiry date is timezone-aware, as [not_valid_after_utc] of a parsed
    certificate is: subtracting the naive [datetime.now()] raises
    [TypeError], which [check_certificate] logs and turns into [None]; no
    [days_until_expiry] is returned. *)
Theorem cached_aware_certificate_yields_nothing s hostname port cert offset :
  cached env s hostname = Some cert ->
  dt_utcoffset (X509.not_valid_after_utc cert) = Some offset ->
  check_certificate env hostname port s =
    (Ret None,
     mk_Sys (self s)
       (mk_World (S (S (steps (world s))))
          (trace (world s) ++
           [Log ERROR
              (ssl_check_failed hostname
                 (Py.mk_exn Py.TypeError
                    "can't subtract offset-naive and offset-aware datetimes"))]))).
Proof.
  unfold cached. intros Hc Haware.
  unfold check_certificate, check_certificate_try, try_except.
  unfold bind at 1. unfold get_self, gets.
  destruct (_cache (self s) !! hostname) as [[cert' ts]|]; [|done].
  unfold bind at 1. unfold time, bind at 1, tick, ret at 1.
  cbn [self world steps trace].
  destruct (_ <? _)%float; [|done]. injection Hc as ->.
  unfold bind at 1. rewrite (get_cert_info_aware cert offset) by done.
  reflexivity.
Qed.

(** C2 (amended). Whatever exception the [try] block of [check_certificate]
    raises, the call logs it and returns [None] when it is an instance of
    [Exception], of whatever class, and lets it reach the caller only when
    it is not ([KeyboardInterrupt], [SystemExit], [GeneratorExit]). *)
Theorem check_certificate_swallows_every_Exception s hostname port e s' :
  check_certificate_try env hostname port s = (Raise e, s') ->
  check_certificate env hostname port s =
    if Py.isinstance e Py.Exception then
      (Ret None,
       mk_Sys (self s')
         (mk_World (steps (world s'))
            (trace (world s') ++ [Log ERROR (ssl_check_failed hostname e)])))
    else (Raise e, s').
Proof.
  intros Hraise. unfold check_certificate, try_except. rewrite Hraise.
  unfold Py.matches. cbn [existsb]. rewrite orb_false_r.
  by destruct (Py.isinstance e Py.Exception).
Qed.

End Facts.

Lemma cached_aware_certificate_yields_nothing_witness :
  check_certificate
    (Examples.quiet_with (Examples.certificate Examples.epoch (Some 0)))
    "example.org" 443
    (Examples.holding (Examples.certificate Examples.epoch (Some 0))) =
  (Ret None,
   mk_Sys
     (self (Examples.holding (Examples.certificate Examples.epoch (Some 0))))
     (mk_World 2
        [Log ERROR
           (ssl_check_failed "example.org"
              (Py.mk_exn Py.TypeError
                 "can't subtract offset-naive and offset-aware datetimes"))])).
Proof.
  apply (cached_aware_certificate_yields_nothing
           (Examples.quiet_with (Examples.certificate Examples.epoch (Some 0)))
           (Examples.holding (Examples.certificate Examples.epoch (Some 0)))
           "example.org" 443
           (Examples.certificate Examples.epoch (Some 0)) 0).
  - vm_compute. reflexivity.
  - reflexivity.
Defined.

(** C2 (as stated, refuted). When the SSL context cannot be allocated the
    [try] block raises [MemoryError], which is none of the monitor's I/O
    failure classes, and the call returns [None] all the same: the policy
    does not hold for this call. *)
Lemma memory_error_is_swallowed :
  check_certificate_try Examples.no_memory "example.org" 443 fresh =
    (Raise Examples.out_of_memory, mk_Sys __init__ (mk_World 1 [SslContext])) /\
  io_failure Examples.out_of_memory = false /\
  check_certificate Examples.no_memory "example.org" 443 fresh =
    (Ret None,
     mk_Sys __init__
       (mk_World 1
          [SslContext;
           Log ERROR (ssl_check_failed "example.org" Examples.out_of_memory)])) /\
  ~ swallows_only_io_failures Examples.no_memory fresh "example.org" 443.
Proof.
  split; [vm_compute; reflexivity|]. split; [reflexivity|].
  split; [vm_compute; reflexivity|].
  intros Hpolicy.
  destruct (Hpolicy Examples.out_of_memory
              (mk_Sys __init__ (mk_World 1 [SslContext])))
    as [s'' Hraise].
  - vm_compute. reflexivity.
  - reflexivity.
  - vm_compute in Hraise. discriminate Hraise.
Qed.

(** The repository's tests, in the model: a first call fetches the
    certificate over the network and a second one, inside the TTL, asks the
    environment for the clocks only; both report 364 days for a naive
    expiry date 365 days after the start. *)
Example check_certificate_of_tests :
  match check_certificate Examples.quiet "example.org" 443 fresh with
  | (Ret (Some first), s1) =>
      days_until_expiry first = 364 /\
      io_events (trace (world s1)) =
        [SslContext; CreateConnection "example.org" 443;
         WrapSocket "example.org"; GetPeerCert] /\
      match check_certificate Examples.quiet "example.org" 443 s1 with
      | (Ret (Some second), s2) =>
          days_until_expiry second = 364 /\
          trace (world s2) = trace (world s1) /\
          self s2 = self s1
      | _ => False
      end
  | _ => False
  end.
Proof. vm_compute. repeat split; reflexivity. Qed.

(** A naive expiry date 35 days in the past reports a negative number of
    days. *)
Example check_certificate_expired :
  match check_certificate
          (Examples.quiet_with
             (Examples.certificate (Examples.epoch - 400 * micros_per_day) None))
          "example.org" 443 fresh with
  | (Ret (Some cert_info), _) => days_until_expiry cert_info = -36
  | _ => False
  end.
Proof. vm_compute. reflexivity. Qed.

(** With the aware dates of a parsed certificate the first call already
    returns [None], after it has fetched and cached the certificate. *)
Example check_certificate_aware_miss :
  match check_certificate
          (Examples.quiet_with (Examples.certificate Examples.epoch (Some 0)))
          "example.org" 443 fresh with
  | (r, s1) =>
      r = Ret None /\
      _cache (self s1) !! "example.org" =
        Some (Examples.certificate Examples.epoch (Some 0), 1004%float)
  end.
Proof. vm_compute. split; reflexivity. Qed.

Lemma check_certificate_swallows_every_Exception_witness :
  check_certificate Examples.no_memory "example.org" 443 fresh =
  (Ret None,
   mk_Sys __init__
     (mk_World 1
        [SslContext;
         Log ERROR (ssl_check_failed "example.org" Examples.out_of_memory)])).
Proof.
  apply (check_certificate_swallows_every_Exception Examples.no_memory fresh
           "example.org" 443 Examples.out_of_memory
           (mk_Sys __init__ (mk_World 1 [SslContext]))).
  vm_compute. reflexivity.
Defined.

End SSLFacts.

(** ** Both caches *)

(** C9. For either monitor, in any state and whatever the clock reads,
    [get_cache_stats] returns, and the number of fresh entries it reports
    is at most the size it reports, which is the number of cached
    entries. *)
Theorem cache_stats_entries_at_most_size :
  (forall env (s : Sys DNSMonitor.t),
     exists st s',
       DNSMonitor.get_cache_stats env s = (Ret st, s') /\
       (entries st <= size st)%nat /\
       size st = length (map_to_list (DNSMonitor._cache (self s)))) /\
  (forall env (s : Sys SSLCertMonitor.t),
     exists st s',
       SSLCertMonitor.get_cache_stats env s = (Ret st, s') /\
       (entries st <= size st)%nat /\
       size st = length (map_to_list (SSLCertMonitor._cache (self s)))).
Proof.
  split; intros env s.
  - unfold DNSMonitor.get_cache_stats, get_self, gets, bind.
    destruct (cache_stats_le env (DNSMonitor._cache (self s))
                (DNSMonitor._cache_ttl (self s)) s)
      as (st & s' & -> & Hle & Hsize & _).
    by exists st, s'.
  - unfold SSLCertMonitor.get_cache_stats, get_self, gets, bind.
    destruct (cache_stats_le env (SSLCertMonitor._cache (self s))
                (SSLCertMonitor._cache_ttl (self s)) s)
      as (st & s' & -> & Hle & Hsize & _).
    by exists st, s'.
Qed.

(** ** NetworkMetrics *)

Module MetricsFacts.
Import NetworkMetrics MetricsSpec.

Section Facts.
Variable env : Env.

(** One turn of the loop never raises: it stores the record of the
    object. *)
Lemma loop_body_stores_record interface (addrs : nic)
    (stats : gmap string InterfaceStats) (s : Sys unit) :
  try_except
    (bind (read_counters addrs) (fun st => ret (<[interface := st]> stats)))
    [Py.AttributeError]
    (fun _ => ret (<[interface := zero_stats]> stats)) s =
  (Ret (<[interface := record_of addrs]> stats), s).
Proof.
  unfold record_of, read_counters, getattr, try_except, bind, ret, raise.
  destruct (addrs !! "bytes_sent"); [|done].
  destruct (addrs !! "bytes_recv"); [|done].
  destruct (addrs !! "packets_sent"); [|done].
  destruct (addrs !! "packets_recv"); [|done].
  destruct (addrs !! "errin"); [|done].
  destruct (addrs !! "errout"); [|done].
  destruct (addrs !! "dropin"); [|done].
  by destruct (addrs !! "dropout").
Qed.

Lemma collect_lookup (items : list (string * nic))
    (stats : gmap string InterfaceStats) (s : Sys unit) :
  NoDup items.*1 ->
  exists stats',
    collect items stats s = (Ret stats', s) /\
    forall name,
      stats' !! name =
        match (list_to_map items : gmap string nic) !! name with
        | Some addrs => Some (record_of addrs)
        | None => stats !! name
        end.
Proof.
  revert stats. induction items as [|[interface addrs] rest IH];
    intros stats Hnd.
  - exists stats. split; [done|]. intros name. cbn. by rewrite lookup_empty.
  - cbn [fmap list_fmap fst] in Hnd. apply NoDup_cons in Hnd as [Hfresh Hnd].
    cbn [collect]. unfold bind at 1. rewrite loop_body_stores_record.
    destruct (IH (<[interface := record_of addrs]> stats) Hnd)
      as (stats' & -> & Hlookup).
    exists stats'. split; [done|]. intros name. rewrite Hlookup.
    cbn [list_to_map foldr]. destruct (decide (interface = name)) as [->|Hne].
    + rewrite (not_elem_of_list_to_map_1 _ _ Hfresh). cbn.
      by rewrite !lookup_insert_eq.
    + cbn. by rewrite !lookup_insert_ne.
Qed.

Lemma record_of_lacking (addrs : nic) :
  lacks_counter addrs -> record_of addrs = zero_stats.
Proof.
  intros (name & Hname & Hnone). unfold record_of, counters in *.
  repeat (apply elem_of_cons in Hname as [->|Hname];
          [rewrite Hnone; by repeat case_match|]).
  by apply elem_of_nil in Hname.
Qed.

(** C8. When the interfaces are enumerated, [get_interface_stats] returns a
    dictionary with one record per interface: all zeros for an interface
    whose object lacks a counter attribute (or all of them), the reported
    values for an interface whose object has the eight counters; it does
    not raise. *)
Theorem interface_stats_zero_when_counters_absent (s : Sys unit)
    (ifs : gmap string nic) :
  net_if_stats env (steps (world s)) = inr ifs ->
  exists stats s',
    get_interface_stats env s = (Ret stats, s') /\
    forall name,
      match ifs !! name with
      | None => stats !! name = None
      | Some addrs =>
          (lacks_counter addrs -> stats !! name = Some zero_stats) /\
          (forall a b c d e f g h,
             addrs !! "bytes_sent" = Some a ->
             addrs !! "bytes_recv" = Some b ->
             addrs !! "packets_sent" = Some c ->
             addrs !! "packets_recv" = Some d ->
             addrs !! "errin" = Some e ->
             addrs !! "errout" = Some f ->
             addrs !! "dropin" = Some g ->
             addrs !! "dropout" = Some h ->
             stats !! name = Some (mk_InterfaceStats a b c d e f g h))
      end.
Proof.
  intros Hifs. unfold get_interface_stats.
  cbv [bind tick emit modify answer ret]. cbn [self world steps trace].
  rewrite Hifs.
  match goal with |- context [collect ?items ?stats ?s1] =>
    destruct (collect_lookup items stats s1 (NoDup_fst_map_to_list ifs))
      as (stats' & -> & Hlookup)
  end.
  eexists _, _. split; [done|]. intros name. rewrite Hlookup.
  rewrite list_to_map_to_list.
  destruct (ifs !! name) as [addrs|]; [|apply lookup_empty].
  split.
  - intros Hlack. by rewrite record_of_lacking.
  - intros a b c d e f g h Ha Hb Hc Hd He Hf Hg Hh. unfold record_of.
    by rewrite Ha, Hb, Hc, Hd, He, Hf, Hg, Hh.
Qed.

End Facts.

Lemma interface_stats_zero_when_counters_absent_witness :
  exists stats s',
    get_interface_stats Examples.quiet fresh = (Ret stats, s') /\
    forall name,
      match Examples.interfaces !! name with
      | None => stats !! name = None
      | Some addrs =>
          (lacks_counter addrs -> stats !! name = Some zero_stats) /\
          (forall a b c d e f g h,
             addrs !! "bytes_sent" = Some a ->
             addrs !! "bytes_recv" = Some b ->
             addrs !! "packets_sent" = Some c ->
             addrs !! "packets_recv" = Some d ->
             addrs !! "errin" = Some e ->
             addrs !! "errout" = Some f ->
             addrs !! "dropin" = Some g ->
             addrs !! "dropout" = Some h ->
             stats !! name = Some (mk_InterfaceStats a b c d e f g h))
      end.
Proof.
  apply (interface_stats_zero_when_counters_absent Examples.quiet fresh
           Examples.interfaces).
  reflexivity.
Defined.

(** The two interfaces of the example: the one without counters reports
    zeros, the other one its values. *)
Example interface_stats_of_example :
  match get_interface_stats Examples.quiet fresh with
  | (Ret stats, _) =>
      stats !! "tun0" = Some zero_stats /\
      stats !! "eth0" = Some (mk_InterfaceStats 1000 2000 10 20 0 0 0 0)
  | (Raise _, _) => False
  end.
Proof. vm_compute. split; reflexivity. Qed.

End MetricsFacts.

(** ** ConnectionMonitor *)

Module ConnectionFacts.
Import ConnectionMonitor ConnectionSpec.

Ltac run :=
  cbv [update get_connections_by_status get_connection_summary
       set_connections set_last_check
       debug warning error log emit time now tick get_self set_self
       gets modify bind ret raise try_except outcome answer];
  cbn [self world steps trace _connections _last_check _check_interval
       fst snd].

Section Facts.
Variable env : Env.
Variable net_connections : nat -> Py.exn + list Psutil.sconn.

Lemma with_status_cons status conn conns :
  with_status status (conn :: conns) =
    (if decide (Psutil.status conn = status) then [details conn] else []) ++
    with_status status conns.
Proof.
  unfold with_status. rewrite filter_cons.
  by destruct (decide (Psutil.status conn = status)).
Qed.

Lemma sum_list_Permutation (l1 l2 : list nat) :
  l1 ≡ₚ l2 -> sum_list l1 = sum_list l2.
Proof. induction 1; cbn; lia. Qed.

(** Counting one more under a key adds one to the total. *)
Lemma total_count_one_more (summary : gmap string nat) status :
  total (<[status := S (default 0%nat (summary !! status))]> summary) =
    S (total summary).
Proof.
  unfold total. destruct (summary !! status) as [n|] eqn:Hn; cbn [default].
  - rewrite <- (insert_delete_eq summary).
    rewrite (sum_list_Permutation _ _
               (fmap_Permutation snd _ _
                  (map_to_list_insert (delete status summary) status (S n)
                     (lookup_delete_eq summary status)))).
    rewrite <- (sum_list_Permutation _ _
                  (fmap_Permutation snd _ _
                     (map_to_list_delete summary status n Hn))).
    done.
  - by rewrite (sum_list_Permutation _ _
                  (fmap_Permutation snd _ _
                     (map_to_list_insert summary status 1%nat Hn))).
Qed.

(** The loop appends every connection to the group of its status, creating
    the group when there is none, and touches nothing else. *)
Lemma regroup_groups conns (s : Sys t) :
  exists groups,
    regroup conns s =
      (Ret tt,
       mk_Sys (mk groups (_last_check (self s)) (_check_interval (self s)))
         (world s)) /\
    (forall status,
       groups !! status =
         match _connections (self s) !! status, with_status status conns with
         | None, [] => None
         | old, new => Some (default [] old ++ new)
         end) /\
    total (length <$> groups) =
      (total (length <$> _connections (self s)) + length conns)%nat.
Proof.
  revert s. induction conns as [|conn rest IH]; intros s.
  - exists (_connections (self s)). split; [|split].
    + by destruct s as [[] []].
    + intros status. cbn. destruct (_connections (self s) !! status); cbn;
        by rewrite ?app_nil_r.
    + cbn. lia.
  - cbn [regroup].
    set (d := mk_Details (Psutil.laddr conn) (Psutil.raddr conn)
                (Psutil.pid conn)).
    set (m := _connections (self s)).
    set (m' := <[Psutil.status conn :=
                   default [] (m !! Psutil.status conn) ++ [d]]> m).
    destruct (IH (mk_Sys (mk m' (_last_check (self s))
                            (_check_interval (self s))) (world s)))
      as (groups & Hrun & Hgroups & Htotal).
    exists groups. split; [|split].
    + cbn [self world _last_check _check_interval _connections] in Hrun.
      rewrite <- Hrun. run. subst m m'.
      destruct (_connections (self s) !! Psutil.status conn) as [l|] eqn:Hl;
        run; do 3 f_equal; apply map_eq; intros k;
        destruct (decide (k = Psutil.status conn)) as [->|Hne];
        rewrite ?lookup_insert_eq, ?lookup_alter_eq, ?lookup_insert_ne,
          ?lookup_alter_ne, ?lookup_insert_eq, ?lookup_insert_ne by done;
        by rewrite ?Hl.
    + intros status. rewrite Hgroups, with_status_cons. cbn [self _connections].
      subst m'. fold (details conn).
      destruct (decide (Psutil.status conn = status)) as [->|Hne].
      * rewrite lookup_insert_eq. subst m. cbn.
        destruct (_connections (self s) !! status); cbn;
          destruct (with_status status rest); cbn;
          by rewrite <- ?app_assoc, ?app_nil_r.
      * by rewrite lookup_insert_ne.
    + rewrite Htotal. cbn [self _connections length]. subst m'.
      rewrite fmap_insert, length_app. cbn [length].
      replace (length (default [] (m !! Psutil.status conn)) + 1)%nat
        with (S (default 0%nat ((length <$> m) !! Psutil.status conn))).
      * rewrite total_count_one_more. lia.
      * rewrite lookup_fmap. destruct (m !! Psutil.status conn); cbn; lia.
Qed.

Lemma update_limited (s : Sys t) :
  limited env s = true ->
  update env net_connections s =
    (Ret tt,
     mk_Sys (self s) (mk_World (S (steps (world s))) (trace (world s)))).
Proof. unfold limited, call_time. intros Hl. run. by rewrite Hl. Qed.

Lemma update_failed (s : Sys t) e :
  limited env s = false ->
  net_connections (S (steps (world s))) = inl e ->
  update env net_connections s =
    (Raise e,
     mk_Sys (mk ∅ (_last_check (self s)) (_check_interval (self s)))
       (mk_World (S (S (steps (world s)))) (trace (world s)))).
Proof.
  unfold limited, call_time. intros Hl He. run. rewrite Hl. run.
  by rewrite He.
Qed.

Lemma update_refreshed (s : Sys t) conns :
  limited env s = false ->
  net_connections (S (steps (world s))) = inr conns ->
  exists groups,
    update env net_connections s =
      (Ret tt,
       mk_Sys (mk groups (call_time env s) (_check_interval (self s)))
         (mk_World (S (S (steps (world s)))) (trace (world s)))) /\
    (forall status,
       groups !! status =
         match with_status status conns with
         | [] => None
         | group => Some group
         end) /\
    total (length <$> groups) = length conns.
Proof.
  unfold limited, call_time. intros Hl Hc.
  destruct (regroup_groups conns
              (mk_Sys (mk ∅ (_last_check (self s)) (_check_interval (self s)))
                 (mk_World (S (S (steps (world s)))) (trace (world s)))))
    as (groups & Hrun & Hgroups & Htotal).
  cbn [self world _connections _last_check _check_interval] in Hrun, Hgroups,
    Htotal.
  exists groups. split; [|split].
  - run. rewrite Hl. run. rewrite Hc. run. by rewrite Hrun.
  - intros status. rewrite Hgroups, lookup_empty. cbn.
    by destruct (with_status status conns).
  - rewrite Htotal, fmap_empty. unfold total. by rewrite map_to_list_empty.
Qed.

(** Inside the refresh interval both views serve the stored snapshot: the
    clock is read and nothing else is asked of the environment. *)
Theorem views_within_interval_serve_snapshot (s : Sys t) status :
  limited env s = true ->
  get_connections_by_status env net_connections status s =
    (Ret (default [] (_connections (self s) !! status)),
     mk_Sys (self s) (mk_World (S (steps (world s))) (trace (world s)))) /\
  get_connection_summary env net_connections s =
    (Ret (length <$> _connections (self s)),
     mk_Sys (self s) (mk_World (S (steps (world s))) (trace (world s)))).
Proof.
  intros Hl. unfold get_connections_by_status, get_connection_summary, bind.
  by rewrite !update_limited.
Qed.

(** Outside the interval [get_connections_by_status] returns the
    connections of the new enumeration that have the status, in its order,
    an empty list when there is none; the old snapshot plays no part. *)
Theorem connections_by_status_after_refresh (s : Sys t) conns status :
  limited env s = false ->
  net_connections (S (steps (world s))) = inr conns ->
  exists s',
    get_connections_by_status env net_connections status s =
      (Ret (with_status status conns), s') /\
    _last_check (self s') = call_time env s /\
    world s' = mk_World (S (S (steps (world s)))) (trace (world s)).
Proof.
  intros Hl Hc.
  destruct (update_refreshed s conns Hl Hc) as (groups & Hrun & Hgroups & _).
  eexists. split.
  - unfold get_connections_by_status, bind. rewrite Hrun.
    cbv [get_self gets ret]. cbn [self _connections]. rewrite Hgroups.
    by destruct (with_status status conns).
  - done.
Qed.

(** Outside the interval [get_connection_summary] counts, for each status,
    the connections of the new enumeration that have it; a status without
    connections has no entry, never a zero, and the counts add up to the
    number of connections enumerated. *)
Theorem summary_after_refresh (s : Sys t) conns :
  limited env s = false ->
  net_connections (S (steps (world s))) = inr conns ->
  exists summary s',
    get_connection_summary env net_connections s = (Ret summary, s') /\
    (forall status,
       default 0%nat (summary !! status) =
         length (filter (fun conn => Psutil.status conn = status) conns)) /\
    (forall status, summary !! status <> Some 0%nat) /\
    total summary = length conns.
Proof.
  intros Hl Hc.
  destruct (update_refreshed s conns Hl Hc)
    as (groups & Hrun & Hgroups & Htotal).
  eexists _, _. split; [|split; [|split]].
  - unfold get_connection_summary, bind. rewrite Hrun.
    cbv [get_self gets ret]. cbn [self _connections]. reflexivity.
  - intros status. rewrite lookup_fmap, Hgroups.
    unfold with_status. rewrite <- (length_fmap details).
    by destruct (details <$> _).
  - intros status. rewrite lookup_fmap, Hgroups.
    by destruct (with_status status conns).
  - done.
Qed.

(** When the enumeration raises, the call raises the same exception; the
    snapshot has already been emptied and the time of the last refresh is
    not moved, so the next call enumerates again. *)
Theorem failed_enumeration_empties_snapshot (s : Sys t) e status :
  limited env s = false ->
  net_connections (S (steps (world s))) = inl e ->
  let s' :=
    mk_Sys (mk ∅ (_last_check (self s)) (_check_interval (self s)))
      (mk_World (S (S (steps (world s)))) (trace (world s))) in
  get_connections_by_status env net_connections status s = (Raise e, s') /\
  get_connection_summary env net_connections s = (Raise e, s').
Proof.
  intros Hl He s'. unfold get_connections_by_status, get_connection_summary, bind.
  by rewrite !(update_failed s e).
Qed.

End Facts.

Lemma views_within_interval_serve_snapshot_witness :
  get_connections_by_status Examples.quiet Examples.listing "LISTEN"
    Examples.watching =
    (Ret (default [] (_connections (self Examples.watching) !! "LISTEN")),
     mk_Sys (self Examples.watching)
       (mk_World (S (steps (world Examples.watching)))
          (trace (world Examples.watching)))) /\
  get_connection_summary Examples.quiet Examples.listing Examples.watching =
    (Ret (length <$> _connections (self Examples.watching)),
     mk_Sys (self Examples.watching)
       (mk_World (S (steps (world Examples.watching)))
          (trace (world Examples.watching)))).
Proof.
  apply (views_within_interval_serve_snapshot Examples.quiet Examples.listing
           Examples.watching "LISTEN").
  vm_compute. reflexivity.
Defined.

Lemma connections_by_status_after_refresh_witness :
  exists s',
    get_connections_by_status Examples.quiet Examples.listing "ESTABLISHED"
      fresh =
      (Ret (with_status "ESTABLISHED" Examples.sockets), s') /\
    _last_check (self s') = call_time Examples.quiet fresh /\
    world s' = mk_World (S (S (steps (world fresh)))) (trace (world fresh)).
Proof.
  apply (connections_by_status_after_refresh Examples.quiet Examples.listing
           fresh Examples.sockets "ESTABLISHED").
  - vm_compute. reflexivity.
  - reflexivity.
Defined.

Lemma summary_after_refresh_witness :
  exists summary s',
    get_connection_summary Examples.quiet Examples.listing fresh =
      (Ret summary, s') /\
    (forall status,
       default 0%nat (summary !! status) =
         length (filter (fun conn => Psutil.status conn = status)
                   Examples.sockets)) /\
    (forall status, summary !! status <> Some 0%nat) /\
    total summary = length Examples.sockets.
Proof.
  apply (summary_after_refresh Examples.quiet Examples.listing fresh
           Examples.sockets).
  - vm_compute. reflexivity.
  - reflexivity.
Defined.

Lemma failed_enumeration_empties_snapshot_witness :
  let s' :=
    mk_Sys
      (mk ∅ (_last_check (self Examples.watching_late))
         (_check_interval (self Examples.watching_late)))
      (mk_World (S (S (steps (world Examples.watching_late))))
         (trace (world Examples.watching_late))) in
  get_connections_by_status Examples.quiet Examples.no_listing "LISTEN"
    Examples.watching_late = (Raise Examples.access_denied, s') /\
  get_connection_summary Examples.quiet Examples.no_listing
    Examples.watching_late = (Raise Examples.access_denied, s').
Proof.
  apply (failed_enumeration_empties_snapshot Examples.quiet
           Examples.no_listing Examples.watching_late Examples.access_denied
           "LISTEN").
  - vm_compute. reflexivity.
  - reflexivity.
Defined.

(** The three sockets of the example: two established, one listening. *)
Example summary_of_example :
  (get_connection_summary Examples.quiet Examples.listing fresh).1 =
    Ret {[ "ESTABLISHED" := 2%nat; "LISTEN" := 1%nat ]}.
Proof. vm_compute. reflexivity. Qed.

End ConnectionFacts.

(** ** More on LatencyMonitor *)

Module LatencyMore.
Import LatencyMonitor LatencySpec LatencyFacts.

Section Facts.
Variable env : Env.

(** [measure_latency] attempts one connection and leaves the monitor alone.
    It returns the time the clock advanced when the attempt succeeds,
    [None] when it raises an [OSError] of any kind, and lets every other
    exception through. *)
Theorem measure_latency_outcomes host port timeout (s : Sys t) :
  exists r s',
    measure_latency env host port timeout s = (r, s') /\
    self s' = self s /\
    io_events (trace (world s')) =
      io_events (trace (world s)) ++ [TcpConnect host port] /\
    match tcp_connect env (S (steps (world s))) host port timeout with
    | None =>
        r = Ret (Some (time_time env (S (S (steps (world s)))) -
                       time_time env (steps (world s)))%float)
    | Some e =>
        if Py.isinstance e Py.OSError then r = Ret None else r = Raise e
    end.
Proof.
  run.
  destruct (tcp_connect env (S (steps (world s))) host port timeout) as [e|];
    run.
  - rewrite PyFacts.matches_timeout_or_OSError.
    destruct (Py.isinstance e Py.OSError); eexists _, _;
      (split; [reflexivity|]); (split; [done|]); (split; [|done]);
      cbn [world trace]; unfold io_events; rewrite !filter_app; cbn;
      by rewrite ?app_nil_r.
  - eexists _, _. split; [reflexivity|]. split; [done|]. split; [|done].
    cbn [world trace]. unfold io_events. by rewrite !filter_app.
Qed.

(** A [track_latency] call for one host, whatever its outcome, leaves the
    history of every other host as it was. *)
Theorem track_latency_keeps_other_hosts host port (s : Sys t) r s' other :
  other <> host ->
  track_latency env host port s = (r, s') ->
  _latencies (self s') !! other = _latencies (self s) !! other.
Proof.
  intros Hne Hrun. destruct (suppressed env s) eqn:Hs.
  { rewrite track_latency_suppressed in Hrun by done.
    by injection Hrun as <- <-. }
  destruct (connect_answer env s host port) as [e|] eqn:Hc.
  - destruct (Py.matches [Py.TimeoutError; Py.OSError] e) eqn:He.
    + rewrite (track_latency_failed _ _ _ _ e) in Hrun by done.
      by injection Hrun as <- <-.
    + rewrite (track_latency_raised _ _ _ _ e) in Hrun by done.
      by injection Hrun as <- <-.
  - rewrite track_latency_measured in Hrun by done.
    injection Hrun as <- <-. cbn [self _latencies].
    by rewrite lookup_insert_ne.
Qed.

(** When the connection attempt of a call that is not skipped raises an
    exception that is not an [OSError], [track_latency] raises it and the
    monitor is as it was: the time stamp has not moved, so the next call is
    not held back by this one. *)
Theorem track_latency_raise_leaves_monitor host port (s : Sys t) e :
  suppressed env s = false ->
  connect_answer env s host port = Some e ->
  Py.isinstance e Py.OSError = false ->
  exists s',
    track_latency env host port s = (Raise e, s') /\
    self s' = self s /\
    forall w, suppressed env (mk_Sys (self s') w) = suppressed env (mk_Sys (self s) w).
Proof.
  intros Hs Hc He. eexists. split.
  - apply (track_latency_raised _ _ _ _ e); [done|done|].
    by rewrite PyFacts.matches_timeout_or_OSError.
  - done.
Qed.

(** A successful measurement of a call that is not skipped becomes the last
    item of the host's history, which grows by one until it holds 100. *)
Theorem track_latency_appends_newest host port (s : Sys t) :
  suppressed env s = false ->
  connect_answer env s host port = None ->
  exists s',
    track_latency env host port s = (Ret tt, s') /\
    last (history (self s') host) = Some (measured env s) /\
    length (history (self s') host) =
      Nat.min 100 (S (length (history (self s) host))).
Proof.
  intros Hs Hc. eexists. split; [by apply track_latency_measured|].
  unfold history at 1 3. cbn [self _latencies]. rewrite lookup_insert_eq.
  cbn [default]. unfold slice_last, id. split.
  - rewrite drop_app_le by (rewrite length_app; cbn; lia).
    apply last_snoc.
  - rewrite length_drop, length_app. cbn [length]. lia.
Qed.

(** In a monitor that has only served calls since it was created, a host
    has an entry exactly when a value was measured for it, and an entry is
    never empty: the host has statistics exactly when a value was measured
    for it, and none when every measurement for it failed or was held
    back. *)
Theorem stats_exist_iff_sample_added n calls host :
  _latencies (self (perform_all env calls (mk_Sys __init__ (mk_World n []))))
    !! host <> Some [] /\
  (_latencies (self (perform_all env calls (mk_Sys __init__ (mk_World n []))))
     !! host = None <->
   samples env calls (mk_Sys __init__ (mk_World n [])) host = []) /\
  (get_latency_stats env
     (self (perform_all env calls (mk_Sys __init__ (mk_World n [])))) host =
     None <->
   samples env calls (mk_Sys __init__ (mk_World n [])) host = []).
Proof.
  unfold get_latency_stats. rewrite fresh_entry.
  destruct (samples env calls _ host) as [|x l]; [done|].
  cbn [entry_of].
  destruct (drop (length (x :: l) - 100) (x :: l)) as [|y l'] eqn:Hd.
  { apply (f_equal length) in Hd. rewrite length_drop in Hd.
    cbn [length] in Hd. lia. }
  done.
Qed.

End Facts.

Lemma track_latency_keeps_other_hosts_witness :
  let s1 := (track_latency Examples.quiet "a.example" 80 fresh).2 in
  let s2 := (track_latency Examples.quiet "b.example" 80 s1).2 in
  _latencies (self s2) !! "a.example" = _latencies (self s1) !! "a.example".
Proof.
  intros s1 s2.
  apply (track_latency_keeps_other_hosts Examples.quiet "b.example" 80 s1
           (track_latency Examples.quiet "b.example" 80 s1).1 s2 "a.example").
  - done.
  - by destruct (track_latency Examples.quiet "b.example" 80 s1).
Defined.

Lemma track_latency_raise_leaves_monitor_witness :
  exists s',
    track_latency Examples.unencodable "a.example" 80 fresh =
      (Raise Examples.bad_host_name, s') /\
    self s' = self fresh /\
    forall w,
      suppressed Examples.unencodable (mk_Sys (self s') w) =
      suppressed Examples.unencodable (mk_Sys (self fresh) w).
Proof.
  apply (track_latency_raise_leaves_monitor Examples.unencodable
           "a.example" 80 fresh Examples.bad_host_name).
  - vm_compute. reflexivity.
  - reflexivity.
  - reflexivity.
Defined.

Lemma track_latency_appends_newest_witness :
  exists s',
    track_latency Examples.quiet "a.example" 80 fresh = (Ret tt, s') /\
    last (history (self s') "a.example") = Some (measured Examples.quiet fresh) /\
    length (history (self s') "a.example") =
      Nat.min 100 (S (length (history (self fresh) "a.example"))).
Proof.
  apply (track_latency_appends_newest Examples.quiet "a.example" 80 fresh).
  - vm_compute. reflexivity.
  - reflexivity.
Defined.

(** Ten calls whose connections are all refused leave the host without
    entry and without statistics. *)
Example no_stats_after_refused_connections :
  samples Examples.unreachable (replicate 10 (track "a.example" 80)) fresh
    "a.example" = [] /\
  get_latency_stats Examples.unreachable
    (self (perform_all Examples.unreachable
             (replicate 10 (track "a.example" 80)) fresh))
    "a.example" = None.
Proof. vm_compute. split; reflexivity. Qed.

End LatencyMore.

(** ** More on DNSMonitor *)

Module DNSMore.
Import DNSMonitor DNSSpec DNSFacts.

Section Facts.
Variable env : Env.

(** A stale entry is refreshed: when the name has an entry that is no
    longer fresh and the lookup succeeds, [resolve] returns the addresses
    just looked up, not the cached ones, and the entry now holds them with
    the time of the lookup; the other entries are as they were. *)
Theorem resolve_refreshes_stale_entry (s : Sys t) hostname old r :
  _cache (self s) !! hostname = Some old ->
  cached env s hostname = None ->
  gethostbyname_ex env (S (steps (world s))) hostname = inr r ->
  exists s',
    resolve env hostname s = (Ret (Some (snd r)), s') /\
    _cache (self s') !! hostname =
      Some (snd r, time_time env (S (S (steps (world s))))) /\
    (forall other, other <> hostname ->
       _cache (self s') !! other = _cache (self s) !! other) /\
    io_events (trace (world s')) =
      io_events (trace (world s)) ++ [GetHostByName hostname].
Proof.
  intros Hold Hc Hr.
  assert (Hidx : lookup_index s hostname = S (steps (world s))).
  { unfold lookup_index. by rewrite Hold. }
  eexists. split.
  - apply (resolve_lookup env hostname s r Hc). by rewrite Hidx.
  - cbn [self world trace _cache]. rewrite Hidx. split; [|split].
    + apply lookup_insert_eq.
    + intros other Hne. by rewrite lookup_insert_ne.
    + unfold io_events. by rewrite filter_app.
Qed.

(** Whatever its outcome, [resolve] removes no entry: a name that has an
    entry before the call has one after it. *)
Theorem resolve_never_evicts (s : Sys t) hostname r s' name :
  resolve env hostname s = (r, s') ->
  is_Some (_cache (self s) !! name) ->
  is_Some (_cache (self s') !! name).
Proof.
  intros Hrun Hsome.
  destruct (cached env s hostname) as [ips|] eqn:Hc.
  { rewrite (resolve_hit _ _ _ ips) in Hrun by done.
    by injection Hrun as <- <-. }
  destruct (gethostbyname_ex env (lookup_index s hostname) hostname)
    as [e|a] eqn:Ha.
  - destruct (Py.matches [Py.socket_gaierror] e) eqn:He.
    + rewrite (resolve_gaierror _ _ _ e) in Hrun by done.
      by injection Hrun as <- <-.
    + rewrite (resolve_raised _ _ _ e) in Hrun by done.
      by injection Hrun as <- <-.
  - rewrite (resolve_lookup _ _ _ a) in Hrun by done.
    injection Hrun as <- <-. cbn [self _cache].
    destruct (decide (hostname = name)) as [->|Hne].
    + rewrite lookup_insert_eq. by eexists.
    + by rewrite lookup_insert_ne.
Qed.

(** [resolve] catches [socket.gaierror] only: when the lookup raises
    another exception, [socket.herror] or [UnicodeError] for instance, the
    call raises it; the monitor is as it was. *)
Theorem resolve_raises_other_errors (s : Sys t) hostname e :
  cached env s hostname = None ->
  gethostbyname_ex env (lookup_index s hostname) hostname = inl e ->
  Py.isinstance e Py.socket_gaierror = false ->
  exists s',
    resolve env hostname s = (Raise e, s') /\
    self s' = self s.
Proof.
  intros Hc Ha He. eexists. split.
  - apply (resolve_raised env hostname s e Hc Ha).
    unfold Py.matches. cbn [existsb]. by rewrite He.
  - done.
Qed.

End Facts.

Lemma resolve_refreshes_stale_entry_witness :
  exists s',
    resolve Examples.quiet "example.org" Examples.stale_dns =
      (Ret (Some (snd Examples.addresses)), s') /\
    _cache (self s') !! "example.org" =
      Some (snd Examples.addresses,
            time_time Examples.quiet (S (S (steps (world Examples.stale_dns))))) /\
    (forall other, other <> "example.org" ->
       _cache (self s') !! other = _cache (self Examples.stale_dns) !! other) /\
    io_events (trace (world s')) =
      io_events (trace (world Examples.stale_dns)) ++
      [GetHostByName "example.org"].
Proof.
  apply (resolve_refreshes_stale_entry Examples.quiet Examples.stale_dns
           "example.org" (["192.0.2.1"], 0%float) Examples.addresses).
  - vm_compute. reflexivity.
  - vm_compute. reflexivity.
  - reflexivity.
Defined.

Lemma resolve_never_evicts_witness :
  let s' := (resolve Examples.no_dns "other.example" Examples.stale_dns).2 in
  is_Some (_cache (self s') !! "example.org").
Proof.
  intros s'.
  apply (resolve_never_evicts Examples.no_dns Examples.stale_dns
           "other.example"
           (resolve Examples.no_dns "other.example" Examples.stale_dns).1
           s' "example.org").
  - by destruct (resolve Examples.no_dns "other.example" Examples.stale_dns).
  - vm_compute. by eexists.
Defined.

Lemma resolve_raises_other_errors_witness :
  exists s',
    resolve Examples.host_error "example.org" fresh =
      (Raise Examples.unknown_host, s') /\
    self s' = self fresh.
Proof.
  apply (resolve_raises_other_errors Examples.host_error fresh "example.org"
           Examples.unknown_host).
  - vm_compute. reflexivity.
  - reflexivity.
  - reflexivity.
Defined.

End DNSMore.

(** ** More on the cache statistics *)

Module CacheMore.

Section Facts.
Context {O V : Type}.
Variable env : Env.

Lemma count_fresh_frozen ttl t (items : list (string * (V * float)))
    (s : Sys O) :
  (forall n, time_time env n = t) ->
  count_fresh env ttl items s =
    (Ret (length (filter (fun item => fresh_at ttl t item = true) items)),
     mk_Sys (self s)
       (mk_World (length items + steps (world s)) (trace (world s)))).
Proof.
  intros Hclock. revert s.
  induction items as [|[k [v timestamp]] rest IH]; intros s.
  - by destruct s as [o []].
  - cbn [count_fresh]. unfold bind at 1. unfold time, bind, tick, ret.
    cbn [self world steps trace]. rewrite IH, Hclock.
    cbn [self world steps trace]. rewrite filter_cons.
    replace (length rest + S (steps (world s)))%nat
      with (S (length rest) + steps (world s))%nat by lia.
    destruct (t - timestamp <? ttl)%float eqn:Hf;
      destruct (decide _) as [Hd|Hd]; try done;
      unfold fresh_at in Hd; cbn [snd] in Hd; by rewrite Hf in Hd.
Qed.

End Facts.

(** While the clock stands still at [t], [get_cache_stats] of either
    monitor reports as [entries] the number of cached entries whose time
    stamp is less than the TTL before [t] and as [size] the number of all
    entries; it reads the clock once per entry and changes nothing. *)
Theorem cache_stats_count_fresh_entries env t :
  (forall n, time_time env n = t) ->
  (forall s : Sys DNSMonitor.t,
     let items := map_to_list (DNSMonitor._cache (self s)) in
     DNSMonitor.get_cache_stats env s =
       (Ret (mk_CacheStats (length items)
               (length (filter
                  (fun item =>
                     fresh_at (DNSMonitor._cache_ttl (self s)) t item = true)
                  items))),
        mk_Sys (self s)
          (mk_World (length items + steps (world s)) (trace (world s))))) /\
  (forall s : Sys SSLCertMonitor.t,
     let items := map_to_list (SSLCertMonitor._cache (self s)) in
     SSLCertMonitor.get_cache_stats env s =
       (Ret (mk_CacheStats (length items)
               (length (filter
                  (fun item =>
                     fresh_at (SSLCertMonitor._cache_ttl (self s)) t item = true)
                  items))),
        mk_Sys (self s)
          (mk_World (length items + steps (world s)) (trace (world s))))).
Proof.
  intros Hclock. split; intros s items.
  - unfold DNSMonitor.get_cache_stats, cache_stats, get_self, gets, bind, ret.
    by rewrite (count_fresh_frozen env _ t).
  - unfold SSLCertMonitor.get_cache_stats, cache_stats, get_self, gets, bind,
      ret.
    by rewrite (count_fresh_frozen env _ t).
Qed.

(** At 1000 s, of the entries fetched at 900 s and at 100 s only the first
    is fresh. *)
Example cache_stats_of_two_names :
  (DNSMonitor.get_cache_stats
     (Examples.with_frozen_clock Examples.quiet 1000%float)
     Examples.two_names).1 = Ret (mk_CacheStats 2 1).
Proof. vm_compute. reflexivity. Qed.

Lemma cache_stats_count_fresh_entries_witness :
  let env := Examples.with_frozen_clock Examples.quiet 1000%float in
  let t := 1000%float in
  (forall s : Sys DNSMonitor.t,
     let items := map_to_list (DNSMonitor._cache (self s)) in
     DNSMonitor.get_cache_stats env s =
       (Ret (mk_CacheStats (length items)
               (length (filter
                  (fun item =>
                     fresh_at (DNSMonitor._cache_ttl (self s)) t item = true)
                  items))),
        mk_Sys (self s)
          (mk_World (length items + steps (world s)) (trace (world s))))) /\
  (forall s : Sys SSLCertMonitor.t,
     let items := map_to_list (SSLCertMonitor._cache (self s)) in
     SSLCertMonitor.get_cache_stats env s =
       (Ret (mk_CacheStats (length items)
               (length (filter
                  (fun item =>
                     fresh_at (SSLCertMonitor._cache_ttl (self s)) t item = true)
                  items))),
        mk_Sys (self s)
          (mk_World (length items + steps (world s)) (trace (world s))))).
Proof.
  intros env t.
  apply (cache_stats_count_fresh_entries env t).
  intros n. reflexivity.
Defined.

End CacheMore.

(** ** More on SSLCertMonitor *)

Module SSLMore.
Import SSLCertMonitor SSLSpec SSLMoreSpec SSLFacts.

Section Facts.
Variable env : Env.

(** The cache is keyed by the host name alone: while the entry of a host
    is fresh, a call answers from it whatever the port, the one of the
    fetch or another. *)
Theorem cache_hit_ignores_port (s : Sys t) hostname cert port port' :
  cached env s hostname = Some cert ->
  check_certificate env hostname port s =
  check_certificate env hostname port' s.
Proof.
  unfold cached. intros Hc. run.
  destruct (_cache (self s) !! hostname) as [[cert' ts]|]; [|done].
  run. by destruct (_ <? _)%float.
Qed.

Lemma hd_shows attrs o :
  shows attrs o (hd "Unknown" (X509.get_attributes_for_oid attrs o)).
Proof.
  unfold shows, X509.get_attributes_for_oid.
  induction attrs as [|[o' v'] attrs IH].
  - left. by split.
  - rewrite (filter_cons (fun a : X509.oid * string => a.1 = o)).
    cbn [fst]. destruct (decide (o' = o)) as [->|Hne].
    + right. exists [], attrs. by split.
    + destruct IH as [[Hv Hall]|(before & after & Heq & Hall)].
      * left. split; [exact Hv|]. by constructor.
      * right. exists ((o', v') :: before), after. split.
        -- cbn [app]. f_equal. exact Heq.
        -- by constructor.
Qed.

(** The information of a certificate names subject and issuer by the first
    attribute of each OID, and shows ["Unknown"] for an OID that has no
    attribute: a missing organization or common name does not make the
    call fail. *)
Theorem missing_name_attribute_is_Unknown (s : Sys t) hostname port cert :
  cached env s hostname = Some cert ->
  dt_utcoffset (X509.not_valid_after_utc cert) = None ->
  exists cert_info s',
    check_certificate env hostname port s = (Ret (Some cert_info), s') /\
    shows (X509.subject cert) X509.COMMON_NAME
      (common_name (subject cert_info)) /\
    shows (X509.subject cert) X509.ORGANIZATION_NAME
      (organization (subject cert_info)) /\
    shows (X509.issuer cert) X509.COMMON_NAME
      (common_name (issuer cert_info)) /\
    shows (X509.issuer cert) X509.ORGANIZATION_NAME
      (organization (issuer cert_info)).
Proof.
  unfold cached. intros Hc Hnaive.
  unfold check_certificate, check_certificate_try, try_except.
  unfold bind at 1. unfold get_self, gets.
  destruct (_cache (self s) !! hostname) as [[cert' ts]|]; [|done].
  unfold bind at 1. unfold time, bind at 1, tick, ret at 1.
  cbn [self world steps trace].
  destruct (_ <? _)%float; [|done]. injection Hc as ->.
  unfold bind at 1. unfold _get_cert_info, datetime_sub. rewrite Hnaive.
  cbv [now tick bind ret answer]. cbn [self world steps trace dt_utcoffset].
  rewrite !get_attr_value_returns.
  eexists _, _. split; [reflexivity|].
  cbn [subject issuer common_name organization].
  repeat split; apply hd_shows.
Qed.

(** The number of days reported for a certificate found in the cache is
    the number of whole days from the reading of [datetime.now()] to the
    expiry date, rounded down: it is 0 during the last 24 hours and -1 from
    the first microsecond after expiry. *)
Theorem days_until_expiry_rounds_down (s : Sys t) hostname port cert :
  cached env s hostname = Some cert ->
  dt_utcoffset (X509.not_valid_after_utc cert) = None ->
  exists cert_info s',
    check_certificate env hostname port s = (Ret (Some cert_info), s') /\
    let left := dt_micros (X509.not_valid_after_utc cert) - read_time env s in
    days_until_expiry cert_info * micros_per_day <= left
      < (days_until_expiry cert_info + 1) * micros_per_day.
Proof.
  intros Hc Hnaive.
  destruct (cached_naive_certificate_days env s hostname port cert Hc Hnaive)
    as (cert_info & Hrun & Hdays & _).
  exists cert_info. eexists. split; [exact Hrun|]. intros left.
  rewrite Hdays. fold left. unfold timedelta_days, micros_per_day.
  pose proof (Z.div_mod left (86400 * 1000000) ltac:(lia)) as Hdm.
  pose proof (Z.mod_pos_bound left (86400 * 1000000) ltac:(lia)) as Hmod.
  lia.
Qed.

(** A fetch that fails at the connection caches nothing: the call logs the
    error and returns [None], and the monitor is as it was, so the next
    call connects again. *)
Theorem connection_failure_caches_nothing (s : Sys t) hostname port e :
  cached env s hostname = None ->
  create_default_context env (fetch_index s hostname) = None ->
  create_connection env (S (fetch_index s hostname)) hostname port = Some e ->
  Py.isinstance e Py.Exception = true ->
  check_certificate env hostname port s =
    (Ret None,
     mk_Sys (self s)
       (mk_World (S (S (fetch_index s hostname)))
          (trace (world s) ++
           [SslContext; CreateConnection hostname port;
            Log ERROR (ssl_check_failed hostname e)]))).
Proof.
  unfold cached, fetch_index. intros Hc Hctx Hconn He.
  unfold check_certificate, try_except.
  assert (Hmatch : Py.matches [Py.Exception] e = true).
  { unfold Py.matches. cbn [existsb]. by rewrite He. }
  assert (Hfetch : forall s0 : Sys t,
            create_default_context env (steps (world s0)) = None ->
            create_connection env (S (steps (world s0))) hostname port = Some e ->
            fetch env hostname port s0 =
              (Raise e,
               mk_Sys (self s0)
                 (mk_World (S (S (steps (world s0))))
                    (trace (world s0) ++
                     [SslContext; CreateConnection hostname port])))).
  { intros s0 H1 H2. unfold fetch.
    cbv [bind tick emit modify outcome ret raise].
    cbn [self world steps trace]. rewrite H1.
    cbn [self world steps trace]. rewrite H2.
    by rewrite <- app_assoc. }
  unfold check_certificate_try. unfold bind at 1. unfold get_self, gets.
  destruct (_cache (self s) !! hostname) as [[cert' ts]|].
  - unfold bind at 1. unfold time, bind at 1, tick, ret at 1.
    cbn [self world steps trace].
    destruct (_ <? _)%float; [done|].
    rewrite Hfetch by done. rewrite Hmatch.
    cbv [bind error log emit modify ret]. cbn [self world steps trace].
    by rewrite <- app_assoc.
  - rewrite Hfetch by done. rewrite Hmatch.
    cbv [bind error log emit modify ret]. cbn [self world steps trace].
    by rewrite <- app_assoc.
Qed.

(** A fetch whose handshake and parse succeed stores the certificate and
    then builds the information. *)
Lemma fetch_parsed (s : Sys t) hostname port der cert :
  create_default_context env (steps (world s)) = None ->
  create_connection env (S (steps (world s))) hostname port = None ->
  wrap_socket env (S (S (steps (world s)))) hostname = None ->
  getpeercert env (S (S (S (steps (world s))))) = inr der ->
  load_der_x509_certificate env der = inr cert ->
  fetch env hostname port s =
    match
      _get_cert_info env cert
        (mk_Sys
           (mk (<[hostname :=
                   (cert, time_time env (S (S (S (S (steps (world s)))))))]>
                  (_cache (self s)))
               (_cache_ttl (self s)))
           (mk_World (S (S (S (S (S (steps (world s)))))))
              (trace (world s) ++
               [SslContext; CreateConnection hostname port;
                WrapSocket hostname; GetPeerCert])))
    with
    | (Ret cert_info, s') => (Ret (Some cert_info), s')
    | (Raise e, s') => (Raise e, s')
    end.
Proof.
  intros H1 H2 H3 H4 H5. unfold fetch.
  cbv [bind tick emit modify outcome answer ret raise time set_cache
       get_self set_self gets].
  cbn [self world steps trace _cache _cache_ttl].
  rewrite H1. cbn [self world steps trace]. rewrite H2.
  cbn [self world steps trace]. rewrite H3.
  cbn [self world steps trace]. rewrite H4.
  cbn [self world steps trace]. rewrite H5.
  cbn [self world steps trace _cache _cache_ttl].
  by rewrite <- !app_assoc.
Qed.

(** On a miss whose handshake and parse succeed, the parsed certificate is
    in the cache when the call returns, under the host name and with the
    time it was stored at, whether the call returns the information (naive
    expiry date) or [None] (aware expiry date). *)
Theorem certificate_is_cached_before_information (s : Sys t) hostname port
    der cert :
  cached env s hostname = None ->
  create_default_context env (fetch_index s hostname) = None ->
  create_connection env (S (fetch_index s hostname)) hostname port = None ->
  wrap_socket env (S (S (fetch_index s hostname))) hostname = None ->
  getpeercert env (S (S (S (fetch_index s hostname)))) = inr der ->
  load_der_x509_certificate env der = inr cert ->
  exists r s',
    check_certificate env hostname port s = (Ret r, s') /\
    _cache (self s') !! hostname =
      Some (cert, time_time env (S (S (S (S (fetch_index s hostname)))))) /\
    (r = None <-> is_Some (dt_utcoffset (X509.not_valid_after_utc cert))).
Proof.
  unfold cached, fetch_index. intros Hc H1 H2 H3 H4 H5.
  assert (Hfetched : forall s0 : Sys t,
    steps (world s0) =
      match _cache (self s) !! hostname with
      | Some _ => S (steps (world s))
      | None => steps (world s)
      end ->
    exists r s',
      try_except (fetch env hostname port) [Py.Exception]
        (fun e => bind (error (ssl_check_failed hostname e))
                    (fun _ => ret None)) s0 = (Ret r, s') /\
      _cache (self s') !! hostname =
        Some (cert, time_time env (S (S (S (S (steps (world s0))))))) /\
      (r = None <-> is_Some (dt_utcoffset (X509.not_valid_after_utc cert)))).
  { intros s0 Hs0. unfold try_except.
    rewrite (fetch_parsed s0 hostname port der cert)
      by (rewrite ?Hs0; assumption).
    destruct (dt_utcoffset (X509.not_valid_after_utc cert)) as [offset|]
      eqn:Htz.
    - rewrite (get_cert_info_aware env cert offset) by done.
      cbv [Py.matches existsb Py.isinstance Py.exn_class]. cbn.
      cbv [bind error log emit modify ret]. cbn [self world steps trace _cache].
      eexists _, _. split; [reflexivity|]. cbn [self _cache].
      split; [apply lookup_insert_eq|]. split; [by eexists|done].
    - match goal with |- context [_get_cert_info env cert ?s1] =>
        destruct (get_cert_info_naive env cert s1 Htz)
          as (cert_info & -> & _)
      end.
      eexists _, _. split; [reflexivity|]. cbn [self _cache].
      split; [apply lookup_insert_eq|].
      split; [discriminate|]. by intros [? [=]]. }
  unfold check_certificate, check_certificate_try.
  destruct (_cache (self s) !! hostname) as [[cert' ts]|] eqn:Hl.
  - specialize (Hfetched
      (mk_Sys (self s) (mk_World (S (steps (world s))) (trace (world s))))
      eq_refl).
    cbn [self world steps] in Hfetched.
    destruct Hfetched as (r & s' & Hrun & Hcache & Hr).
    exists r, s'. split; [|done]. rewrite <- Hrun.
    unfold try_except, bind at 1, get_self, gets. rewrite Hl.
    unfold bind at 1, time, bind at 1, tick, ret at 1.
    cbn [self world steps trace].
    by destruct (_ <? _)%float.
  - destruct (Hfetched s eq_refl) as (r & s' & Hrun & Hcache & Hr).
    exists r, s'. split; [|done]. rewrite <- Hrun.
    unfold try_except, bind at 1, get_self, gets. by rewrite Hl.
Qed.

End Facts.

Lemma certificate_is_cached_before_information_witness :
  let env := Examples.quiet_with (Examples.certificate Examples.epoch (Some 0)) in
  exists r s',
    check_certificate env "example.org" 443 fresh = (Ret r, s') /\
    _cache (self s') !! "example.org" =
      Some (Examples.certificate Examples.epoch (Some 0),
            time_time env (S (S (S (S (fetch_index fresh "example.org")))))) /\
    (r = None <->
     is_Some (dt_utcoffset
                (X509.not_valid_after_utc
                   (Examples.certificate Examples.epoch (Some 0))))).
Proof.
  intros env.
  apply (certificate_is_cached_before_information env fresh "example.org" 443
           "der" (Examples.certificate Examples.epoch (Some 0)));
    reflexivity.
Defined.

Lemma cache_hit_ignores_port_witness :
  check_certificate Examples.quiet "example.org" 443
    (Examples.holding (Examples.certificate Examples.epoch None)) =
  check_certificate Examples.quiet "example.org" 8443
    (Examples.holding (Examples.certificate Examples.epoch None)).
Proof.
  apply (cache_hit_ignores_port Examples.quiet
           (Examples.holding (Examples.certificate Examples.epoch None))
           "example.org" (Examples.certificate Examples.epoch None) 443 8443).
  vm_compute. reflexivity.
Defined.

Lemma missing_name_attribute_is_Unknown_witness :
  let cert := Examples.certificate Examples.epoch None in
  exists cert_info s',
    check_certificate Examples.quiet "example.org" 443 (Examples.holding cert) =
      (Ret (Some cert_info), s') /\
    shows (X509.subject cert) X509.COMMON_NAME
      (common_name (subject cert_info)) /\
    shows (X509.subject cert) X509.ORGANIZATION_NAME
      (organization (subject cert_info)) /\
    shows (X509.issuer cert) X509.COMMON_NAME
      (common_name (issuer cert_info)) /\
    shows (X509.issuer cert) X509.ORGANIZATION_NAME
      (organization (issuer cert_info)).
Proof.
  intros cert.
  apply (missing_name_attribute_is_Unknown Examples.quiet
           (Examples.holding cert) "example.org" 443 cert).
  - vm_compute. reflexivity.
  - reflexivity.
Defined.

(** The certificate of the examples names no organization for its
    subject. *)
Example subject_without_organization :
  match check_certificate Examples.quiet "example.org" 443
          (Examples.holding (Examples.certificate Examples.epoch None)) with
  | (Ret (Some cert_info), _) =>
      subject cert_info = mk_NameInfo "example.org" "Unknown" /\
      issuer cert_info = mk_NameInfo "Example CA" "Example"
  | _ => False
  end.
Proof. vm_compute. split; reflexivity. Qed.

Lemma days_until_expiry_rounds_down_witness :
  let cert := Examples.certificate Examples.epoch None in
  let s := Examples.holding cert in
  exists cert_info s',
    check_certificate Examples.quiet "example.org" 443 s =
      (Ret (Some cert_info), s') /\
    let left :=
      dt_micros (X509.not_valid_after_utc cert) - read_time Examples.quiet s in
    days_until_expiry cert_info * micros_per_day <= left
      < (days_until_expiry cert_info + 1) * micros_per_day.
Proof.
  intros cert s.
  apply (days_until_expiry_rounds_down Examples.quiet s "example.org" 443 cert).
  - vm_compute. reflexivity.
  - reflexivity.
Defined.

(** One microsecond after expiry the number of days is -1; one microsecond
    before, it is 0. *)
Example days_around_expiry :
  timedelta_days (-1) = -1 /\ timedelta_days 1 = 0 /\
  timedelta_days (micros_per_day - 1) = 0 /\
  timedelta_days micros_per_day = 1.
Proof. by vm_compute. Qed.

Lemma connection_failure_caches_nothing_witness :
  check_certificate Examples.no_tls "example.org" 443 fresh =
    (Ret None,
     mk_Sys (self fresh)
       (mk_World (S (S (fetch_index fresh "example.org")))
          (trace (world fresh) ++
           [SslContext; CreateConnection "example.org" 443;
            Log ERROR (ssl_check_failed "example.org" Examples.refused)]))).
Proof.
  apply (connection_failure_caches_nothing Examples.no_tls fresh
           "example.org" 443 Examples.refused).
  - vm_compute. reflexivity.
  - reflexivity.
  - reflexivity.
  - reflexivity.
Defined.

End SSLMore.

(** ** The command line *)

Module CLIFacts.
Import NetworkCLI.

Ltac run :=
  cbv [main command try_except2 call print print_err print_cache_stats
       min_of max_of avg_of truthy
       gets modify bind ret raise try_except outcome answer
       self world stdout stderr fst snd];
  cbn [steps trace].

(** The projections of a console state compute once the state is a
    constructor. *)
Ltac open_console s :=
  destruct s as [[? ?] ?]; cbn [self world stdout stderr] in *.

Section Facts.
Variable env : Env.
Variable net_connections : nat -> Py.exn + list Psutil.sconn.

Lemma measure_latency_connected host port timeout (s : Sys LatencyMonitor.t) :
  tcp_connect env (S (steps (world s))) host port timeout = None ->
  LatencyMonitor.measure_latency env host port timeout s =
    (Ret (Some (time_time env (S (S (steps (world s)))) -
                time_time env (steps (world s)))%float),
     mk_Sys (self s)
       (mk_World (S (S (S (steps (world s)))))
          (trace (world s) ++ [TcpConnect host port]))).
Proof. intros Hc. LatencyFacts.run. by rewrite Hc. Qed.

Lemma measure_latency_failed host port timeout (s : Sys LatencyMonitor.t) e :
  tcp_connect env (S (steps (world s))) host port timeout = Some e ->
  Py.isinstance e Py.OSError = true ->
  LatencyMonitor.measure_latency env host port timeout s =
    (Ret None,
     mk_Sys (self s)
       (mk_World (S (S (steps (world s))))
          (trace (world s) ++
           [TcpConnect host port; Log WARNING (failed_to_measure host e)]))).
Proof.
  intros Hc He. LatencyFacts.run. rewrite Hc. LatencyFacts.run.
  rewrite PyFacts.matches_timeout_or_OSError, He.
  by rewrite <- app_assoc.
Qed.

Lemma measure_latency_raised host port timeout (s : Sys LatencyMonitor.t) e :
  tcp_connect env (S (steps (world s))) host port timeout = Some e ->
  Py.isinstance e Py.OSError = false ->
  LatencyMonitor.measure_latency env host port timeout s =
    (Raise e,
     mk_Sys (self s)
       (mk_World (S (S (steps (world s))))
          (trace (world s) ++ [TcpConnect host port]))).
Proof.
  intros Hc He. LatencyFacts.run. rewrite Hc. LatencyFacts.run.
  by rewrite PyFacts.matches_timeout_or_OSError, He.
Qed.

(** With no turn to make, the latency command has no measurement to take
    the minimum of: [min] raises [ValueError], which [main] reports on the
    error stream before it returns 1.  No connection is attempted. *)
Theorem latency_with_no_count_exits_1 host port count json (s : Sys Console) :
  count <= 0 ->
  exists e,
    Py.exn_class e = Py.ValueError /\
    main env net_connections (latency_command host port count json) s =
      (Ret 1,
       mk_Sys (mk_Console (stdout (self s)) (stderr (self s) ++ [error_line e]))
         (world s)).
Proof.
  intros Hcount. assert (Z.to_nat count = 0%nat) as Hn by lia.
  open_console s. eexists. split; [|run; rewrite Hn; cbn [measure_all]; run; reflexivity].
  reflexivity.
Qed.

Lemma for_each_print {A} (f : A -> printed) (l : list A) (s : Sys Console) :
  for_each l (fun x => print (f x)) s =
    (Ret tt,
     mk_Sys (mk_Console (stdout (self s) ++ (f <$> l)) (stderr (self s)))
       (world s)).
Proof.
  revert s. induction l as [|x l IH]; intros s.
  - cbn. rewrite app_nil_r. by destruct s as [[] ?].
  - cbn [for_each]. unfold bind, print at 1, modify. rewrite IH.
    cbn [self world stdout stderr fmap list_fmap].
    by rewrite <- app_assoc.
Qed.

(** While every attempt connects, the loop makes all its turns. *)
Lemma measure_all_connected n host port monitor acc (s : Sys Console) :
  (forall k, tcp_connect env k host port 1%float = None) ->
  exists latencies w,
    measure_all env n host port monitor acc s =
      (Ret (Some (acc ++ latencies)), mk_Sys (self s) w) /\
    length latencies = n /\
    io_events (trace w) =
      io_events (trace (world s)) ++ replicate n (TcpConnect host port).
Proof.
  intros Hconn. revert monitor acc s.
  induction n as [|n IH]; intros monitor acc s.
  - exists [], (world s). rewrite app_nil_r. split; [by destruct s|].
    split; [done|]. cbn. by rewrite app_nil_r.
  - cbn [measure_all]. unfold bind at 1, call.
    rewrite measure_latency_connected by apply Hconn.
    cbn [self world steps trace fst snd].
    match goal with |- context [measure_all env n host port monitor ?acc' ?s1] =>
      destruct (IH monitor acc' s1) as (latencies & w & Hrun & Hlen & Hio)
    end.
    rewrite Hrun. cbn [self world trace] in *.
    eexists (_ :: latencies), w. split; [|split].
    + by rewrite <- app_assoc.
    + cbn. by rewrite Hlen.
    + rewrite Hio. unfold io_events. rewrite filter_app. cbn.
      by rewrite <- app_assoc.
Qed.

(** When every connection attempt succeeds, the latency command with a
    positive count makes exactly that many attempts, prints nothing on the
    error stream and returns 0; with [--json] it prints one document with
    that many measurements. *)
Theorem latency_all_connected_exits_0 host port count json (s : Sys Console) :
  0 < count ->
  (forall k, tcp_connect env k host port 1%float = None) ->
  exists s',
    main env net_connections (latency_command host port count json) s =
      (Ret 0, s') /\
    stderr (self s') = stderr (self s) /\
    io_events (trace (world s')) =
      io_events (trace (world s)) ++
      replicate (Z.to_nat count) (TcpConnect host port) /\
    (json = true ->
     exists measurements stats,
       stdout (self s') =
         stdout (self s) ++
         [formatted_json (latency_data host port measurements stats)] /\
       length measurements = Z.to_nat count).
Proof.
  intros Hcount Hconn.
  pose proof (measure_all_connected (Z.to_nat count) host port
              LatencyMonitor.__init__ [] s Hconn) as Hall.
  open_console s. destruct Hall as (latencies & w & Hrun & Hlen & Hio).
  cbn [app] in Hrun.
  destruct latencies as [|x xs]; [cbn in Hlen; lia|].
  run. rewrite Hrun. run. destruct json.
  - run. eexists. split; [reflexivity|]. cbn [self world stderr stdout trace].
    split; [done|]. split; [done|]. intros _. by eexists _, _.
  - run.
    match goal with |- context [for_each ?l ?body ?s0] =>
      change (for_each l body s0)
        with (for_each l
                (fun item => print (measurement_line item.1 item.2)) s0)
    end.
    rewrite for_each_print. run.
    eexists. split; [reflexivity|]. cbn [self world stderr stdout trace].
    split; [done|]. split; [done|]. discriminate.
Qed.

(** When the first connection attempt of the latency command raises an
    [OSError], the command reports the failure on the error stream and
    returns 1 at once: whatever the count, no second attempt is made and
    nothing is printed on the output stream. *)
Theorem latency_stops_at_first_failure host port count json
    (s : Sys Console) e :
  0 < count ->
  tcp_connect env (S (steps (world s))) host port 1%float = Some e ->
  Py.isinstance e Py.OSError = true ->
  main env net_connections (latency_command host port count json) s =
    (Ret 1,
     mk_Sys
       (mk_Console (stdout (self s)) (stderr (self s) ++ [failed_latency host]))
       (mk_World (S (S (steps (world s))))
          (trace (world s) ++
           [TcpConnect host port; Log WARNING (failed_to_measure host e)]))).
Proof.
  intros Hcount Hc He.
  destruct (Z.to_nat count) as [|n] eqn:Hn; [lia|].
  open_console s. run. rewrite Hn. cbn [measure_all]. run.
  rewrite (measure_latency_failed host port 1%float _ e) by done.
  by run.
Qed.

(** When the first connection attempt raises something that is no
    [OSError], [main] decides: a [KeyboardInterrupt] gives the exit code
    130, another [Exception] is printed on the error stream and gives 1,
    anything else is raised to the caller. *)
Theorem latency_interrupted_exits_130 host port count json
    (s : Sys Console) e :
  0 < count ->
  tcp_connect env (S (steps (world s))) host port 1%float = Some e ->
  Py.isinstance e Py.OSError = false ->
  let w :=
    mk_World (S (S (steps (world s))))
      (trace (world s) ++ [TcpConnect host port]) in
  main env net_connections (latency_command host port count json) s =
    if Py.isinstance e Py.KeyboardInterrupt then
      (Ret 130,
       mk_Sys (mk_Console (stdout (self s)) (stderr (self s) ++ [cancelled])) w)
    else if Py.isinstance e Py.Exception then
      (Ret 1,
       mk_Sys
         (mk_Console (stdout (self s)) (stderr (self s) ++ [error_line e])) w)
    else (Raise e, mk_Sys (self s) w).
Proof.
  intros Hcount Hc He w.
  destruct (Z.to_nat count) as [|n] eqn:Hn; [lia|].
  open_console s. subst w. run. rewrite Hn. cbn [measure_all]. run.
  rewrite (measure_latency_raised host port 1%float _ e) by done.
  run. destruct (Py.isinstance e Py.KeyboardInterrupt); [done|].
  by destruct (Py.isinstance e Py.Exception).
Qed.

Lemma fresh_dns_misses (w : World) hostname :
  DNSSpec.cached env (mk_Sys DNSMonitor.__init__ w) hostname = None /\
  DNSSpec.lookup_index (mk_Sys DNSMonitor.__init__ w) hostname = steps w.
Proof.
  unfold DNSSpec.cached, DNSSpec.lookup_index. cbn [self world].
  unfold DNSMonitor.__init__. cbn [DNSMonitor._cache].
  by rewrite lookup_empty.
Qed.

(** The dns command follows the one lookup it makes.  Answered with
    addresses, it prints them with the cache statistics, which count one
    entry, and returns 0.  When the lookup raises, nothing is printed on
    the output stream: a [socket.gaierror] gives the failure message and
    1, a [KeyboardInterrupt] the cancellation message and 130, another
    [Exception] is printed and gives 1, and anything else is raised to
    the caller. *)
Theorem dns_exit_code_follows_lookup hostname json (s : Sys Console) :
  exists r s',
    main env net_connections (dns_command hostname json) s = (r, s') /\
    match gethostbyname_ex env (steps (world s)) hostname with
    | inr answer =>
        r = Ret 0 /\
        stderr (self s') = stderr (self s) /\
        exists st,
          size st = 1%nat /\
          stdout (self s') =
            stdout (self s) ++
            if json then [formatted_json (dns_data hostname answer.2 st)]
            else
              [dns_header hostname; addresses_header] ++
              (address_line <$> answer.2) ++
              [cache_header; cache_line "size" (size st);
               cache_line "entries" (entries st)]
    | inl e =>
        stdout (self s') = stdout (self s) /\
        if Py.isinstance e Py.socket_gaierror then
          r = Ret 1 /\
          stderr (self s') = stderr (self s) ++ [failed_resolve hostname]
        else if Py.isinstance e Py.KeyboardInterrupt then
          r = Ret 130 /\ stderr (self s') = stderr (self s) ++ [cancelled]
        else if Py.isinstance e Py.Exception then
          r = Ret 1 /\ stderr (self s') = stderr (self s) ++ [error_line e]
        else r = Raise e /\ stderr (self s') = stderr (self s)
    end.
Proof.
  destruct (fresh_dns_misses (world s) hostname) as [Hmiss Hidx].
  open_console s.
  destruct (gethostbyname_ex env _ hostname) as [e|answer] eqn:Hr.
  - destruct (Py.isinstance e Py.socket_gaierror) eqn:Hgai.
    + run.
      rewrite (DNSFacts.resolve_gaierror env hostname _ e Hmiss)
        by (rewrite ?Hidx; try done; unfold Py.matches; cbn [existsb];
            by rewrite Hgai).
      run. by eexists _, _.
    + run.
      rewrite (DNSFacts.resolve_raised env hostname _ e Hmiss)
        by (rewrite ?Hidx; try done; unfold Py.matches; cbn [existsb];
            by rewrite Hgai).
      run. destruct (Py.isinstance e Py.KeyboardInterrupt); [by eexists _, _|].
      destruct (Py.isinstance e Py.Exception); by eexists _, _.
  - run.
    rewrite (DNSFacts.resolve_lookup env hostname _ answer Hmiss)
      by (by rewrite Hidx).
    run. rewrite Hidx.
    match goal with |- context [DNSMonitor.get_cache_stats env ?s1] =>
      destruct (DNSFacts.get_cache_stats_frame env s1)
        as (st & s2 & -> & _ & Hsize & _)
    end.
    cbn [self DNSMonitor._cache DNSMonitor.__init__] in Hsize.
    rewrite insert_empty, map_to_list_singleton in Hsize.
    run. destruct json.
    + run. eexists _, _. split; [reflexivity|]. split; [done|].
      split; [done|]. by exists st.
    + run.
      match goal with |- context [for_each ?l ?body ?s0] =>
        change (for_each l body s0)
          with (for_each l (fun ip => print (address_line ip)) s0)
      end.
      rewrite for_each_print. run. eexists _, _. split; [reflexivity|].
      split; [done|]. split; [done|]. exists st. split; [done|].
      by rewrite <- !app_assoc.
Qed.

(** For a certificate as the parser returns it, with timezone-aware
    dates, the ssl command reports a failure and returns 1 although the
    handshake and the parse succeeded. *)
Theorem ssl_command_fails_on_aware_dates hostname port json
    (s : Sys Console) der cert offset :
  create_default_context env (steps (world s)) = None ->
  create_connection env (S (steps (world s))) hostname port = None ->
  wrap_socket env (S (S (steps (world s)))) hostname = None ->
  getpeercert env (S (S (S (steps (world s))))) = inr der ->
  load_der_x509_certificate env der = inr cert ->
  dt_utcoffset (X509.not_valid_after_utc cert) = Some offset ->
  exists s',
    main env net_connections (ssl_command hostname port json) s = (Ret 1, s') /\
    stdout (self s') = stdout (self s) /\
    stderr (self s') = stderr (self s) ++ [failed_certificate hostname].
Proof.
  intros H1 H2 H3 H4 H5 Htz. open_console s. run.
  unfold SSLCertMonitor.check_certificate, SSLCertMonitor.check_certificate_try,
    try_except.
  cbv [bind get_self gets]. cbn [self SSLCertMonitor._cache
                                 SSLCertMonitor.__init__].
  rewrite lookup_empty.
  rewrite (SSLMore.fetch_parsed env _ hostname port der cert) by done.
  rewrite (SSLFacts.get_cert_info_aware env cert offset) by done.
  cbv [Py.matches existsb Py.isinstance Py.exn_class]. cbn.
  cbv [bind error log emit modify ret]. cbn [self world steps trace fst snd].
  eexists. split; [reflexivity|]. by cbn [self stdout stderr].
Qed.

(** An instance of [Exception] is no [KeyboardInterrupt]. *)
Lemma Exception_is_no_interrupt e :
  Py.isinstance e Py.Exception = true ->
  Py.isinstance e Py.KeyboardInterrupt = false.
Proof. destruct e as [c msg]. by destruct c. Qed.

Lemma by_status_refreshed status (s : Sys ConnectionMonitor.t) conns :
  ConnectionSpec.limited env s = false ->
  net_connections (S (steps (world s))) = inr conns ->
  exists o,
    ConnectionMonitor.get_connections_by_status env net_connections status s =
      (Ret (ConnectionSpec.with_status status conns),
       mk_Sys o (mk_World (S (S (steps (world s)))) (trace (world s)))).
Proof.
  intros Hl Hc.
  destruct (ConnectionFacts.update_refreshed env net_connections s conns Hl Hc)
    as (groups & Hrun & Hgroups & _).
  eexists. unfold ConnectionMonitor.get_connections_by_status, bind.
  rewrite Hrun. cbv [get_self gets ret].
  cbn [self ConnectionMonitor._connections]. rewrite Hgroups.
  by destruct (ConnectionSpec.with_status status conns).
Qed.

Lemma summary_refreshed (s : Sys ConnectionMonitor.t) conns :
  ConnectionSpec.limited env s = false ->
  net_connections (S (steps (world s))) = inr conns ->
  exists summary o,
    ConnectionMonitor.get_connection_summary env net_connections s =
      (Ret summary,
       mk_Sys o (mk_World (S (S (steps (world s)))) (trace (world s)))) /\
    (forall status,
       default 0%nat (summary !! status) =
         length (filter (fun conn => Psutil.status conn = status) conns)) /\
    ConnectionSpec.total summary = length conns.
Proof.
  intros Hl Hc.
  destruct (ConnectionFacts.update_refreshed env net_connections s conns Hl Hc)
    as (groups & Hrun & Hgroups & Htotal).
  eexists _, _. split; [|split].
  - unfold ConnectionMonitor.get_connection_summary, bind. rewrite Hrun.
    cbv [get_self gets ret]. cbn [self ConnectionMonitor._connections].
    reflexivity.
  - intros status. rewrite lookup_fmap, Hgroups.
    unfold ConnectionSpec.with_status.
    rewrite <- (length_fmap ConnectionSpec.details).
    by destruct (ConnectionSpec.details <$> _).
  - done.
Qed.

(** The connections command with a status that is not empty, on a clock
    that reads at least one second: it enumerates the connections once
    and prints those that have the status, in the order of the
    enumeration, as one document with [--json] and one per line under a
    header without; it returns 0. *)
Theorem connections_command_lists_status status json (s : Sys Console) conns :
  status <> EmptyString ->
  ConnectionSpec.limited env
    (mk_Sys ConnectionMonitor.__init__ (world s)) = false ->
  net_connections (S (steps (world s))) = inr conns ->
  main env net_connections (connections_command (Some status) json) s =
    (Ret 0,
     mk_Sys
       (mk_Console
          (stdout (self s) ++
           if json then
             [formatted_json
                (status_data (ConnectionSpec.with_status status conns))]
           else
             status_header status ::
             (details_line <$> ConnectionSpec.with_status status conns))
          (stderr (self s)))
       (mk_World (S (S (steps (world s)))) (trace (world s)))).
Proof.
  intros Hstatus Hl Hc. destruct status as [|c rest]; [done|].
  destruct (by_status_refreshed (String c rest) _ conns Hl Hc) as (o & Hrun).
  open_console s. run. rewrite Hrun. run. destruct json.
  - by run.
  - run.
    match goal with |- context [for_each ?l ?body ?s0] =>
      change (for_each l body s0)
        with (for_each l (fun conn => print (details_line conn)) s0)
    end.
    rewrite for_each_print. run. by rewrite <- app_assoc.
Qed.

(** Without a status, or with the empty string as status, the connections
    command prints the summary: with [--json] one document whose counts
    are, for each status, the number of enumerated connections that have
    it, and add up to the number of connections; without it, a header and
    one line per status of the summary. *)
Theorem connections_command_summarises status json (s : Sys Console) conns :
  status = None \/ status = Some EmptyString ->
  ConnectionSpec.limited env
    (mk_Sys ConnectionMonitor.__init__ (world s)) = false ->
  net_connections (S (steps (world s))) = inr conns ->
  exists summary,
    (forall st,
       default 0%nat (summary !! st) =
         length (filter (fun conn => Psutil.status conn = st) conns)) /\
    ConnectionSpec.total summary = length conns /\
    exists lines,
      main env net_connections (connections_command status json) s =
        (Ret 0,
         mk_Sys (mk_Console (stdout (self s) ++ lines) (stderr (self s)))
           (mk_World (S (S (steps (world s)))) (trace (world s)))) /\
      if json then lines = [formatted_json (summary_data summary)]
      else
        exists counts,
          lines = summary_header :: counts /\
          counts ≡ₚ
            (fun item => summary_line item.1 item.2) <$> map_to_list summary.
Proof.
  intros Hstatus Hl Hc.
  destruct (summary_refreshed _ conns Hl Hc)
    as (summary & o & Hrun & Hcount & Htotal).
  exists summary. split; [done|]. split; [done|].
  assert (main env net_connections (connections_command status json) s =
          main env net_connections (connections_command None json) s) as ->.
  { by destruct Hstatus as [->| ->]. }
  open_console s. run. rewrite Hrun. run. destruct json.
  - run. by eexists.
  - run.
    match goal with |- context [for_each ?l ?body ?s0] =>
      change (for_each l body s0)
        with (for_each l (fun item => print (summary_line item.1 item.2)) s0)
    end.
    rewrite for_each_print. run. eexists. split.
    + by rewrite <- app_assoc.
    + by eexists.
Qed.

(** When the enumeration of the connections raises an [Exception], as
    [psutil.AccessDenied] is, the connections command prints nothing on
    the output stream, prints the exception as an error and returns 1,
    whatever its options. *)
Theorem connections_command_reports_failure status json (s : Sys Console) e :
  ConnectionSpec.limited env
    (mk_Sys ConnectionMonitor.__init__ (world s)) = false ->
  net_connections (S (steps (world s))) = inl e ->
  Py.isinstance e Py.Exception = true ->
  main env net_connections (connections_command status json) s =
    (Ret 1,
     mk_Sys (mk_Console (stdout (self s)) (stderr (self s) ++ [error_line e]))
       (mk_World (S (S (steps (world s)))) (trace (world s)))).
Proof.
  intros Hl Hc He.
  pose proof (ConnectionFacts.update_failed env net_connections _ e Hl Hc)
    as Hrun.
  pose proof (Exception_is_no_interrupt e He) as Hki.
  open_console s.
  destruct status as [[|c rest]|]; run;
    unfold ConnectionMonitor.get_connection_summary,
      ConnectionMonitor.get_connections_by_status, bind;
    rewrite Hrun; cbn [self world]; by rewrite Hki, He.
Qed.

Lemma foldl_snoc_fmap {A B} (f : A -> B) (l : list A) (acc : list B) :
  foldl (fun connections conn => connections ++ [f conn]) acc l =
    acc ++ (f <$> l).
Proof.
  revert acc. induction l as [|x l IH]; intros acc; cbn.
  - by rewrite app_nil_r.
  - by rewrite IH, <- app_assoc.
Qed.

Lemma get_interface_stats_returns (s : Sys unit) ifs :
  net_if_stats env (steps (world s)) = inr ifs ->
  exists stats,
    NetworkMetrics.get_interface_stats env s =
      (Ret stats,
       mk_Sys (self s)
         (mk_World (S (steps (world s))) (trace (world s) ++ [NetIfStats]))) /\
    forall name,
      stats !! name = MetricsSpec.record_of <$> ifs !! name.
Proof.
  intros Hifs. unfold NetworkMetrics.get_interface_stats.
  cbv [bind tick emit modify answer ret gets]. cbn [self world steps trace].
  rewrite Hifs.
  match goal with |- context [NetworkMetrics.collect ?items ?stats ?s1] =>
    destruct (MetricsFacts.collect_lookup items stats s1
                (NoDup_fst_map_to_list ifs))
      as (stats' & -> & Hlookup)
  end.
  eexists. split; [done|]. intros name. rewrite Hlookup.
  rewrite list_to_map_to_list.
  destruct (ifs !! name); [done|apply lookup_empty].
Qed.

(** The metrics command with [--json] asks for the interfaces, then for
    the connections, and prints one document: a record per interface
    (zeros where a counter is missing) and a record per connection in the
    order of the enumeration. *)
Theorem metrics_command_prints_one_document (s : Sys Console) ifs conns :
  net_if_stats env (steps (world s)) = inr ifs ->
  net_connections (S (steps (world s))) = inr conns ->
  exists stats,
    (forall name, stats !! name = MetricsSpec.record_of <$> ifs !! name) /\
    main env net_connections (metrics_command true) s =
      (Ret 0,
       mk_Sys
         (mk_Console
            (stdout (self s) ++
             [formatted_json (metrics_data stats (ConnectionSpec.connection_of <$> conns))])
            (stderr (self s)))
         (mk_World (S (S (steps (world s))))
            (trace (world s) ++ [NetIfStats]))).
Proof.
  intros Hifs Hc.
  destruct (get_interface_stats_returns (mk_Sys tt (world s)) ifs Hifs)
    as (stats & Hrun & Hstats).
  exists stats. split; [done|].
  pose proof (foldl_snoc_fmap ConnectionSpec.connection_of conns []) as Hmap.
  cbn [app] in Hmap. rewrite <- Hmap. clear Hmap.
  open_console s. run. rewrite Hrun. run.
  unfold NetworkMetrics_connections.get_connections.
  cbv [bind tick gets modify answer ret]. cbn [self world steps trace].
  rewrite Hc. reflexivity.
Qed.

(** The metrics command prints only when it has both the interfaces and
    the connections: when the enumeration of the connections raises an
    [Exception], the interfaces already read are not printed, the
    exception is printed as an error and the exit code is 1. *)
Theorem metrics_command_needs_connections json (s : Sys Console) ifs e :
  net_if_stats env (steps (world s)) = inr ifs ->
  net_connections (S (steps (world s))) = inl e ->
  Py.isinstance e Py.Exception = true ->
  main env net_connections (metrics_command json) s =
    (Ret 1,
     mk_Sys (mk_Console (stdout (self s)) (stderr (self s) ++ [error_line e]))
       (mk_World (S (S (steps (world s))))
          (trace (world s) ++ [NetIfStats]))).
Proof.
  intros Hifs Hc He.
  destruct (get_interface_stats_returns (mk_Sys tt (world s)) ifs Hifs)
    as (stats & Hrun & _).
  pose proof (Exception_is_no_interrupt e He) as Hki.
  open_console s. run. rewrite Hrun. run.
  unfold NetworkMetrics_connections.get_connections.
  cbv [bind tick gets modify answer ret raise]. cbn [self world steps trace].
  rewrite Hc. cbn [self world steps trace fst snd].
  by rewrite Hki, He.
Qed.

End Facts.

Lemma latency_with_no_count_exits_1_witness :
  exists e,
    Py.exn_class e = Py.ValueError /\
    main Examples.quiet Examples.listing
      (latency_command "example.org" 80 0 false) fresh =
      (Ret 1,
       mk_Sys
         (mk_Console (stdout (self fresh)) (stderr (self fresh) ++ [error_line e]))
         (world fresh)).
Proof.
  apply (latency_with_no_count_exits_1 Examples.quiet Examples.listing
           "example.org" 80 0 false fresh).
  lia.
Defined.

Lemma latency_all_connected_exits_0_witness :
  exists s',
    main Examples.quiet Examples.listing
      (latency_command "example.org" 80 5 true) fresh = (Ret 0, s') /\
    stderr (self s') = stderr (self fresh) /\
    io_events (trace (world s')) =
      io_events (trace (world fresh)) ++
      replicate (Z.to_nat 5) (TcpConnect "example.org" 80) /\
    (true = true ->
     exists measurements stats,
       stdout (self s') =
         stdout (self fresh) ++
         [formatted_json (latency_data "example.org" 80 measurements stats)] /\
       length measurements = Z.to_nat 5).
Proof.
  apply (latency_all_connected_exits_0 Examples.quiet Examples.listing
           "example.org" 80 5 true fresh).
  - lia.
  - intros k. reflexivity.
Defined.

Lemma latency_stops_at_first_failure_witness :
  main Examples.unreachable Examples.listing
    (latency_command "example.org" 80 5 false) fresh =
    (Ret 1,
     mk_Sys
       (mk_Console (stdout (self fresh))
          (stderr (self fresh) ++ [failed_latency "example.org"]))
       (mk_World (S (S (steps (world fresh))))
          (trace (world fresh) ++
           [TcpConnect "example.org" 80;
            Log WARNING (failed_to_measure "example.org" Examples.refused)]))).
Proof.
  apply (latency_stops_at_first_failure Examples.unreachable Examples.listing
           "example.org" 80 5 false fresh Examples.refused).
  - lia.
  - reflexivity.
  - reflexivity.
Defined.

Lemma latency_interrupted_exits_130_witness :
  let w :=
    mk_World (S (S (steps (world fresh))))
      (trace (world fresh) ++ [TcpConnect "example.org" 80]) in
  main Examples.interrupted Examples.listing
    (latency_command "example.org" 80 5 false) fresh =
    if Py.isinstance Examples.control_c Py.KeyboardInterrupt then
      (Ret 130,
       mk_Sys
         (mk_Console (stdout (self fresh)) (stderr (self fresh) ++ [cancelled]))
         w)
    else if Py.isinstance Examples.control_c Py.Exception then
      (Ret 1,
       mk_Sys
         (mk_Console (stdout (self fresh))
            (stderr (self fresh) ++ [error_line Examples.control_c])) w)
    else (Raise Examples.control_c, mk_Sys (self fresh) w).
Proof.
  apply (latency_interrupted_exits_130 Examples.interrupted Examples.listing
           "example.org" 80 5 false fresh Examples.control_c).
  - lia.
  - reflexivity.
  - reflexivity.
Defined.

Lemma ssl_command_fails_on_aware_dates_witness :
  let cert := Examples.certificate Examples.epoch (Some 0) in
  exists s',
    main (Examples.quiet_with cert) Examples.listing
      (ssl_command "example.org" 443 false) fresh = (Ret 1, s') /\
    stdout (self s') = stdout (self fresh) /\
    stderr (self s') = stderr (self fresh) ++ [failed_certificate "example.org"].
Proof.
  intros cert.
  apply (ssl_command_fails_on_aware_dates (Examples.quiet_with cert)
           Examples.listing "example.org" 443 false fresh "der" cert 0);
    reflexivity.
Defined.

Lemma connections_command_lists_status_witness :
  main Examples.quiet Examples.listing
    (connections_command (Some "ESTABLISHED") false) fresh =
    (Ret 0,
     mk_Sys
       (mk_Console
          (stdout (self fresh) ++
           status_header "ESTABLISHED" ::
           (details_line <$>
              ConnectionSpec.with_status "ESTABLISHED" Examples.sockets))
          (stderr (self fresh)))
       (mk_World (S (S (steps (world fresh)))) (trace (world fresh)))).
Proof.
  apply (connections_command_lists_status Examples.quiet Examples.listing
           "ESTABLISHED" false fresh Examples.sockets).
  - discriminate.
  - vm_compute. reflexivity.
  - reflexivity.
Defined.

Lemma connections_command_summarises_witness :
  exists summary,
    (forall st,
       default 0%nat (summary !! st) =
         length (filter (fun conn => Psutil.status conn = st)
                   Examples.sockets)) /\
    ConnectionSpec.total summary = length Examples.sockets /\
    exists lines,
      main Examples.quiet Examples.listing
        (connections_command (Some EmptyString) true) fresh =
        (Ret 0,
         mk_Sys
           (mk_Console (stdout (self fresh) ++ lines) (stderr (self fresh)))
           (mk_World (S (S (steps (world fresh)))) (trace (world fresh)))) /\
      lines = [formatted_json (summary_data summary)].
Proof.
  apply (connections_command_summarises Examples.quiet Examples.listing
           (Some EmptyString) true fresh Examples.sockets).
  - by right.
  - vm_compute. reflexivity.
  - reflexivity.
Defined.

Lemma connections_command_reports_failure_witness :
  main Examples.quiet Examples.no_listing (connections_command None false)
    fresh =
    (Ret 1,
     mk_Sys
       (mk_Console (stdout (self fresh))
          (stderr (self fresh) ++ [error_line Examples.access_denied]))
       (mk_World (S (S (steps (world fresh)))) (trace (world fresh)))).
Proof.
  apply (connections_command_reports_failure Examples.quiet Examples.no_listing
           None false fresh Examples.access_denied).
  - vm_compute. reflexivity.
  - reflexivity.
  - reflexivity.
Defined.

Lemma metrics_command_prints_one_document_witness :
  exists stats,
    (forall name,
       stats !! name = MetricsSpec.record_of <$> Examples.interfaces !! name) /\
    main Examples.quiet Examples.listing (metrics_command true) fresh =
      (Ret 0,
       mk_Sys
         (mk_Console
            (stdout (self fresh) ++
             [formatted_json
                (metrics_data stats
                   (ConnectionSpec.connection_of <$> Examples.sockets))])
            (stderr (self fresh)))
         (mk_World (S (S (steps (world fresh))))
            (trace (world fresh) ++ [NetIfStats]))).
Proof.
  apply (metrics_command_prints_one_document Examples.quiet Examples.listing
           fresh Examples.interfaces Examples.sockets); reflexivity.
Defined.

Lemma metrics_command_needs_connections_witness :
  main Examples.quiet Examples.no_listing (metrics_command false) fresh =
    (Ret 1,
     mk_Sys
       (mk_Console (stdout (self fresh))
          (stderr (self fresh) ++ [error_line Examples.access_denied]))
       (mk_World (S (S (steps (world fresh))))
          (trace (world fresh) ++ [NetIfStats]))).
Proof.
  apply (metrics_command_needs_connections Examples.quiet Examples.no_listing
           false fresh Examples.interfaces Examples.access_denied);
    reflexivity.
Defined.

(** The latency command of the examples: five measurements of two seconds
    each. *)
Example latency_command_of_example :
  (main Examples.quiet Examples.listing
     (latency_command "example.org" 80 5 true) fresh).1 = Ret 0 /\
  stdout
    (self (main Examples.quiet Examples.listing
             (latency_command "example.org" 80 5 true) fresh).2) =
    [formatted_json
       (latency_data "example.org" 80 [2; 2; 2; 2; 2]%float
          (LatencyMonitor.mk_Stats 2 2 2))].
Proof. vm_compute. split; reflexivity. Qed.

(** With the naive dates of the repository's tests the ssl command
    succeeds. *)
Example ssl_command_of_tests :
  (main Examples.quiet Examples.listing
     (ssl_command "example.org" 443 true) fresh).1 = Ret 0.
Proof. vm_compute. reflexivity. Qed.

End CLIFacts.
